(** * OpenRouterClient: the generation client of openrouter-agents

    A shallow embedding of [src/core/OpenRouterClient.ts] together with the
    types it uses ([types/config.ts], [types/index.ts], [types/api.ts]),
    followed by the properties of the client that the specification states.

    Conventions of the embedding.
    - A JavaScript [number] is an IEEE 754 binary64 value: Rocq's primitive
      [float].  An HTTP status is the [unsigned short] of the Fetch
      standard: [N].
    - A JavaScript string is a [string]; the operations used by the client
      ([includes], an anchored literal regular expression, concatenation)
      are tested against ASCII needles only, for which the UTF-8 bytes of a
      text and its UTF-16 code units give the same answers.
    - [process.env] is a finite map from names to strings.
    - An optional field or argument ([x?: T]) is an [option]; [None] stands
      for [undefined].
    - A promise is the outcome it settles with: [Return v] or [Throw e]. *)

From Stdlib Require Import ZArith Ascii PrimFloat FloatOps SpecFloat Uint63.
From stdpp Require Import base option list strings gmap pretty.

Set Warnings "-inexact-float,-register-all,-clear-no-such-hyp".
Local Open Scope Z_scope.

(** ** JavaScript values and operators used by the client *)

Module JS.

(** A string or [undefined] used as a condition: [Some s] when it is
    truthy, that is, a string other than the empty one. *)
Definition truthy_string (a : option string) : option string :=
  match a with
  | Some s => if decide (s = "") then None else Some s
  | None => None
  end.

(** [a || b] where [a] is a string or [undefined]. *)
Definition or (a : option string) (b : string) : string :=
  match truthy_string a with
  | Some s => s
  | None => b
  end.

(** [a ?? b]: only [undefined] (and [null]) give way to [b]. *)
Definition nullish {A} (a : option A) (b : A) : A :=
  match a with
  | Some x => x
  | None => b
  end.

(** The truthiness of an optional boolean ([options?.forceJson]). *)
Definition truthy (a : option bool) : bool :=
  match a with
  | Some b => b
  | None => false
  end.

(** [s.includes(needle)]. *)
Fixpoint includes (needle s : string) : bool :=
  String.prefix needle s ||
  match s with
  | EmptyString => false
  | String _ s' => includes needle s'
  end.

(** The regular expressions of the client are all of the form [/^lit/]:
    a literal anchored at the start. *)
Inductive RegExp := Anchored (lit : string).

(** [pattern.test(s)] (the patterns carry no flags, hence no state). *)
Definition test (pattern : RegExp) (s : string) : bool :=
  match pattern with
  | Anchored lit => String.prefix lit s
  end.

(** [xs.some(p)]. *)
Definition some {A} (p : A → bool) (xs : list A) : bool := existsb p xs.

(** [Math.floor] on a binary64 value.  A finite value is
    [(-1)^s * m * 2^e]; with [e >= 0] it is an integer already, otherwise
    [m < 2^53] and the floor is an integer of magnitude at most [2^53],
    which [of_uint63] converts exactly.  Zeros, infinities and NaN are
    returned unchanged. *)
Definition Math_floor (x : float) : float :=
  match Prim2SF x with
  | S754_finite s m e =>
      if 0 <=? e then x
      else
        let z := Z.shiftl (if s then Z.neg m else Z.pos m) e in
        let a := PrimFloat.of_uint63 (Uint63.of_Z (Z.abs z)) in
        if s then PrimFloat.opp a else a
  | _ => x
  end.

(** What a [throw] carries: an [Error] object with its message, or any
    other value. *)
Inductive Thrown :=
| Error (message : string)
| NotAnError.

(** The outcome of a computation that may throw; for an [async] function
    or a promise, how it settles. *)
Inductive Outcome (A : Type) :=
| Return (a : A)
| Throw (e : Thrown).
Global Arguments Return {A} a.
Global Arguments Throw {A} e.

Global Instance Outcome_ret : MRet Outcome := @Return.
Global Instance Outcome_bind : MBind Outcome := λ A B f m,
  match m with
  | Return a => f a
  | Throw e => Throw e
  end.

(** [try { body } catch (error) { handler }] and [promise.catch(handler)]. *)
Definition catch {A} (body : Outcome A) (handler : Thrown → Outcome A)
  : Outcome A :=
  match body with
  | Return a => Return a
  | Throw e => handler e
  end.

End JS.

(** ** Types *)

(** [types/index.ts]: [ServiceType]. *)
Inductive ServiceType :=
| mockGenerator
| codeGenerator
| translation
| documentation
| custom.

Global Instance ServiceType_eq_dec : EqDecision ServiceType.
Proof. solve_decision. Defined.

(** The string a [ServiceType] is at run time (it is a union of string
    literals), as a template literal interpolates it. *)
Definition ServiceType_str (t : ServiceType) : string :=
  match t with
  | mockGenerator => "mockGenerator"
  | codeGenerator => "codeGenerator"
  | translation => "translation"
  | documentation => "documentation"
  | custom => "custom"
  end.

(** [types/config.ts]: [OpenRouterConfig]. *)
Module OpenRouterConfig.
Record t := mk {
  apiKey : string;
  baseURL : string;
  model : string;
}.
End OpenRouterConfig.

(** The [options] argument of [generate]. *)
Module Options.
Record t := mk {
  systemPrompt : option string;
  temperature : option float;
  maxTokens : option float;
  forceJson : option bool;
  model : option string;
}.
End Options.

(** [types/api.ts]: [APIMessage], [ResponseFormat], [APIRequest] (with the
    fields [generate] writes). *)
Inductive Role := system | user | assistant.

Module APIMessage.
Record t := mk {
  role : Role;
  content : string;
}.
End APIMessage.

Inductive ResponseFormatType := text | json_object.

Module ResponseFormat.
Record t := mk { type : ResponseFormatType }.
End ResponseFormat.

Module APIRequest.
Record t := mk {
  model : string;
  messages : list APIMessage.t;
  temperature : float;
  max_tokens : float;
  response_format : option ResponseFormat.t;
}.
End APIRequest.

(** [process.env]. *)
Abbreviation Env := (gmap string string).

(** ** The client: the service profile resolver

    What the methods read through [this]: the fields of [this.config] and
    [this.serviceType].  Which object [this.config] refers to, and who else
    holds that reference, is the matter of [Module Store] below. *)
Record OpenRouterClient := {
  config : OpenRouterConfig.t;
  serviceType : ServiceType;
}.

Definition getServiceKey (this : OpenRouterClient) : string :=
  match serviceType this with
  | mockGenerator => "MOCK_GENERATOR"
  | codeGenerator => "CODE_GENERATOR"
  | translation => "TRANSLATION"
  | documentation => "DOCUMENTATION"
  | custom => "DEFAULT"
  end.

Definition getModelForService (this : OpenRouterClient) (env : Env) : string :=
  let serviceKey := getServiceKey this in
  let serviceModelKey := "OPENROUTER_" +:+ serviceKey +:+ "_MODEL" in
  let serviceModel := env !! serviceModelKey in
  match JS.truthy_string serviceModel with
  | Some serviceModel => serviceModel
  | None =>
      match JS.truthy_string (env !! "OPENROUTER_DEFAULT_MODEL") with
      | Some defaultModel => defaultModel
      | None => OpenRouterConfig.model (config this)
      end
  end.

Definition jsonCapablePatterns : list JS.RegExp :=
  [ JS.Anchored "openai/";
    JS.Anchored "gpt-";
    JS.Anchored "nitro";
    JS.Anchored "anthropic/claude-3";
    JS.Anchored "google/gemini" ].

Definition supportsJsonMode (modelId : string) : bool :=
  JS.some (λ pattern, JS.test pattern modelId) jsonCapablePatterns.

Definition getSystemPromptForService (this : OpenRouterClient)
    (forceJson : option bool) : string :=
  let forceJson := JS.nullish forceJson false in
  match serviceType this with
  | mockGenerator =>
      if forceJson then
        "You are a mock data generator. Generate realistic mock data based on the provided schema and examples. You MUST return only valid JSON. Do not include any markdown formatting, code blocks, or explanations. The response must be parseable JSON."
      else
        "You are a mock data generator. Generate realistic mock data based on the provided schema and examples. Return only valid JSON without markdown formatting or explanations."
  | codeGenerator =>
      "You are a code generator assistant. Generate clean, well-structured code following best practices. Include appropriate comments and follow the existing code style."
  | translation =>
      "You are a translation assistant. Translate text accurately while preserving technical terms and context. Return only the translated text without explanations."
  | documentation =>
      "You are a documentation assistant. Create clear, comprehensive documentation that is well-structured and easy to understand. Include examples where appropriate."
  | custom =>
      "You are an AI assistant. Provide helpful and accurate responses."
  end.

Definition getTemperatureForService (this : OpenRouterClient) : float :=
  match serviceType this with
  | mockGenerator => 0.7
  | codeGenerator => 0.3
  | translation => 0.1
  | documentation => 0.4
  | custom => 0.5
  end%float.

Definition getTokenLimitByService (this : OpenRouterClient)
    (highLimit defaultLimit : float) : float :=
  match serviceType this with
  | mockGenerator => highLimit
  | codeGenerator => JS.Math_floor (highLimit * 0.75)
  | translation => JS.Math_floor (defaultLimit * 0.75)
  | documentation => highLimit
  | custom => defaultLimit
  end%float.

Definition getMaxTokensForService (this : OpenRouterClient) (env : Env)
  : float :=
  let model := getModelForService this env in
  if JS.includes "claude-3" model then
    getTokenLimitByService this 8000 4000
  else if JS.includes "gpt-4" model then
    getTokenLimitByService this 6000 3000
  else if JS.includes "gpt-3.5" model then
    getTokenLimitByService this 3000 2000
  else if JS.includes "gemini" model then
    getTokenLimitByService this 7000 3500
  else
    getTokenLimitByService this 4000 2000.

Definition getDefaultConfig (env : Env) : OpenRouterConfig.t :=
  {| OpenRouterConfig.apiKey := JS.or (env !! "OPENROUTER_API_KEY") "";
     OpenRouterConfig.baseURL := "https://openrouter.ai/api/v1";
     OpenRouterConfig.model :=
       JS.or (env !! "OPENROUTER_DEFAULT_MODEL") "anthropic/claude-3.5-sonnet" |}.

(** The wire request [generate] assembles before it calls [fetch]
    (the statements up to and including the JSON-mode negotiation). *)
Definition requestBody (this : OpenRouterClient) (env : Env)
    (prompt : string) (options : option Options.t) : APIRequest.t :=
  let model :=
    JS.or (options ≫= Options.model) (getModelForService this env) in
  let systemPrompt :=
    JS.or (options ≫= Options.systemPrompt)
          (getSystemPromptForService this (options ≫= Options.forceJson)) in
  let temperature :=
    JS.nullish (options ≫= Options.temperature)
               (getTemperatureForService this) in
  let maxTokens :=
    JS.nullish (options ≫= Options.maxTokens)
               (getMaxTokensForService this env) in
  let requestBody :=
    {| APIRequest.model := model;
       APIRequest.messages :=
         [ {| APIMessage.role := system; APIMessage.content := systemPrompt |};
           {| APIMessage.role := user; APIMessage.content := prompt |} ];
       APIRequest.temperature := temperature;
       APIRequest.max_tokens := maxTokens;
       APIRequest.response_format := None |} in
  if JS.truthy (options ≫= Options.forceJson) && supportsJsonMode model then
    {| APIRequest.model := APIRequest.model requestBody;
       APIRequest.messages := APIRequest.messages requestBody;
       APIRequest.temperature := APIRequest.temperature requestBody;
       APIRequest.max_tokens := APIRequest.max_tokens requestBody;
       APIRequest.response_format :=
         Some {| ResponseFormat.type := json_object |} |}
  else requestBody.

(** ** JSON values, as [JSON.parse] builds them and [JSON.stringify] prints
    them *)

Inductive JSON :=
| JNull
| JBool (b : bool)
| JNumber (x : float)
| JString (s : string)
| JArray (items : list JSON)
| JObject (props : list (string * JSON)).

(** A JavaScript value read out of a JSON document: a JSON value or
    [undefined]. *)
Abbreviation Value := (option JSON).

Module Json.

Definition DQUOTE : ascii := "034"%char.
Definition BACKSLASH : ascii := "092"%char.

Definition hex_digit (n : N) : ascii :=
  match n with
  | 0 => "0" | 1 => "1" | 2 => "2" | 3 => "3" | 4 => "4" | 5 => "5"
  | 6 => "6" | 7 => "7" | 8 => "8" | 9 => "9" | 10 => "a" | 11 => "b"
  | 12 => "c" | 13 => "d" | 14 => "e" | _ => "f"
  end%N%char.

(** QuoteJSONString, one code unit: the two-character escapes, [\u00xx]
    for the other control characters, anything else as it is. *)
Definition escape (c : ascii) : string :=
  let n := N_of_ascii c in
  if (n =? 8)%N then String BACKSLASH "b"
  else if (n =? 9)%N then String BACKSLASH "t"
  else if (n =? 10)%N then String BACKSLASH "n"
  else if (n =? 12)%N then String BACKSLASH "f"
  else if (n =? 13)%N then String BACKSLASH "r"
  else if (n =? 34)%N then String BACKSLASH (String DQUOTE "")
  else if (n =? 92)%N then String BACKSLASH (String BACKSLASH "")
  else if (n <? 32)%N then
    String BACKSLASH
      ("u00" +:+ String (hex_digit (n / 16)) (String (hex_digit (n mod 16)) ""))
  else String c "".

Fixpoint escape_all (s : string) : string :=
  match s with
  | EmptyString => ""
  | String c s' => escape c +:+ escape_all s'
  end.

Definition quote (s : string) : string :=
  String DQUOTE (escape_all s +:+ String DQUOTE "").

(** [JSON.stringify(v)].  The decimal text of a finite number is what the
    engine's Number::toString gives, taken here as [Number_toString];
    NaN and the infinities print as [null]. *)
Section Stringify.
Variable Number_toString : float → string.

Fixpoint stringify (v : JSON) : string :=
  match v with
  | JNull => "null"
  | JBool true => "true"
  | JBool false => "false"
  | JNumber x => if PrimFloat.is_finite x then Number_toString x else "null"
  | JString s => quote s
  | JArray items =>
      "[" +:+ String.concat "," (map stringify items) +:+ "]"
  | JObject props =>
      "{" +:+
      String.concat ","
        (map (λ kv, quote (fst kv) +:+ ":" +:+ stringify (snd kv)) props)
      +:+ "}"
  end.
End Stringify.

(** An own property of an object, by name. *)
Fixpoint own (props : list (string * JSON)) (key : string) : Value :=
  match props with
  | [] => None
  | (k, v) :: rest => if decide (k = key) then Some v else own rest key
  end.

End Json.

Module Import JSValues.

(** Is the value [undefined] or [null]? *)
Definition nullish_value (v : Value) : bool :=
  match v with
  | None | Some JNull => true
  | _ => false
  end.

(** ToBoolean. *)
Definition truthy_value (v : Value) : bool :=
  match v with
  | None | Some JNull => false
  | Some (JBool b) => b
  | Some (JNumber x) => negb (PrimFloat.is_zero x || PrimFloat.is_nan x)
  | Some (JString s) => if decide (s = "") then false else true
  | Some (JArray _) | Some (JObject _) => true
  end.

(** The message of the TypeError that V8 (the engine under Node.js)
    raises when a property is read from [undefined] or [null]. *)
Definition cannot_read (v : Value) (key : string) : JS.Thrown :=
  JS.Error ("Cannot read properties of " +:+
            match v with None => "undefined" | Some _ => "null" end +:+
            " (reading '" +:+ key +:+ "')").

(** [v.key] and [v[key]], for the keys the client reads ([choices], [0],
    [message], [content]), none of which is found on a prototype.
    An object answers with its own property; an array with its element
    at an index key; a string with its character at an index key (of a
    non-ASCII text the first byte stands for the first code unit: the
    client only ever tests the result for being nullish); a number or a
    boolean with [undefined].  Reading from [undefined] or [null]
    throws. *)
Definition get (v : Value) (key : string) : JS.Outcome Value :=
  match v with
  | None | Some JNull => JS.Throw (cannot_read v key)
  | Some (JObject props) => JS.Return (Json.own props key)
  | Some (JArray items) =>
      JS.Return (if decide (key = "0") then head items else None)
  | Some (JString s) =>
      JS.Return
        (if decide (key = "0") then
           match s with
           | EmptyString => None
           | String c _ => Some (JString (String c ""))
           end
         else None)
  | Some (JNumber _) | Some (JBool _) => JS.Return None
  end.

(** [v?.key]. *)
Definition get_optional (v : Value) (key : string) : JS.Outcome Value :=
  if nullish_value v then JS.Return None else get v key.

(** [v || ''] as a value. *)
Definition or_empty (v : Value) : JSON :=
  match v with
  | Some j => if truthy_value v then j else JString ""
  | None => JString ""
  end.

End JSValues.

(** ** The transport: [fetch] and its [Response] *)

(** The part of a [Response] the client looks at.  [json] is how the promise
    of [response.json()] settles: with the parsed body, or rejected when
    the body is not JSON. *)
Module Response.
Record t := mk {
  status : N;
  statusText : string;
  json : JS.Outcome JSON;
}.

(** [response.ok]: the status is in the range 200-299. *)
Definition ok (r : t) : bool := (200 <=? status r)%N && (status r <=? 299)%N.
End Response.

(** The second argument of [fetch]. *)
Module RequestInit.
Record t := mk {
  method : string;
  headers : list (string * string);
  body : string;
}.
End RequestInit.

(** [fetch(url, init)]: the network, as a function from the request to the
    outcome of the returned promise. *)
Abbreviation Fetch := (string → RequestInit.t → JS.Outcome Response.t).

Module Wire.

Definition Role_str (r : Role) : string :=
  match r with
  | system => "system"
  | user => "user"
  | assistant => "assistant"
  end.

Definition ResponseFormatType_str (t : ResponseFormatType) : string :=
  match t with
  | text => "text"
  | json_object => "json_object"
  end.

Definition message (m : APIMessage.t) : JSON :=
  JObject [ ("role", JString (Role_str (APIMessage.role m)));
            ("content", JString (APIMessage.content m)) ].

(** The object [requestBody] of [generate] as [JSON.stringify] walks it:
    its properties in the order they were created, [response_format]
    only if it was assigned. *)
Definition request (r : APIRequest.t) : JSON :=
  JObject
    ([ ("model", JString (APIRequest.model r));
       ("messages", JArray (map message (APIRequest.messages r)));
       ("temperature", JNumber (APIRequest.temperature r));
       ("max_tokens", JNumber (APIRequest.max_tokens r)) ] ++
     match APIRequest.response_format r with
     | Some f =>
         [ ("response_format",
            JObject [ ("type",
                       JString (ResponseFormatType_str (ResponseFormat.type f))) ]) ]
     | None => []
     end).

End Wire.

(** ** The client: [generate] *)

Section Generate.
(** Number::toString of the engine (see [Json.stringify]). *)
Variable Number_toString : float → string.

Definition JSON_stringify : JSON → string := Json.stringify Number_toString.

(** The arguments of the one [fetch] call of [generate]. *)
Definition fetch_url (this : OpenRouterClient) : string :=
  OpenRouterConfig.baseURL (config this) +:+ "/chat/completions".

Definition fetch_init (this : OpenRouterClient) (requestBody : APIRequest.t)
  : RequestInit.t :=
  {| RequestInit.method := "POST";
     RequestInit.headers :=
       [ ("Authorization",
          "Bearer " +:+ OpenRouterConfig.apiKey (config this));
         ("Content-Type", "application/json");
         ("HTTP-Referer", "https://github.com/bramato/openrouter-agents");
         ("X-Title", "OpenRouter Agents " +:+ ServiceType_str (serviceType this)) ];
     RequestInit.body := JSON_stringify (Wire.request requestBody) |}.

(** [data.choices[0]?.message?.content]. *)
Definition first_content (data : JSON) : JS.Outcome Value :=
  choices ← get (Some data) "choices";
  choice ← get choices "0";
  message ← get_optional choice "message";
  get_optional message "content".

Definition generate (this : OpenRouterClient) (env : Env) (fetch : Fetch)
    (prompt : string) (options : option Options.t) : JS.Outcome JSON :=
  JS.catch
    (let requestBody := requestBody this env prompt options in
     response ← fetch (fetch_url this) (fetch_init this requestBody);
     if negb (Response.ok response) then
       errorData ← JS.catch (Response.json response)
                            (λ _, JS.Return (JObject []));
       JS.Throw
         (JS.Error
            ("OpenRouter API error: " +:+
             pretty (Response.status response) +:+ " " +:+
             Response.statusText response +:+ " - " +:+
             JSON_stringify errorData))
     else
       data ← Response.json response;
       content ← first_content data;
       JS.Return (or_empty content))
    (λ error,
       JS.Throw
         (JS.Error
            ("Failed to generate with " +:+
             ServiceType_str (serviceType this) +:+ ": " +:+
             match error with
             | JS.Error message => message
             | JS.NotAnError => "Unknown error"
             end))).

End Generate.

(** ** The client as an object: references and aliasing

    [this.config] holds a reference to a configuration object.  The store
    maps references to the objects they denote; the methods that rebind or
    copy the configuration are written over it. *)
Module Store.

Abbreviation loc := positive.
Abbreviation heap := (gmap loc OpenRouterConfig.t).

Record client := {
  config_ref : loc;
  service : ServiceType;
}.

(** [Partial<OpenRouterConfig>]: [None] is a property that is not there. *)
Record partial := {
  p_apiKey : option string;
  p_baseURL : option string;
  p_model : option string;
}.

(** [new OpenRouterClient(config, serviceType = 'custom')]: the reference
    the caller passes is the one the client keeps. *)
Definition constructor (config : loc) (serviceType : option ServiceType)
  : client :=
  {| config_ref := config; service := JS.nullish serviceType custom |}.

(** An object literal: a new object at a reference not in use. *)
Definition alloc (o : OpenRouterConfig.t) (σ : heap) : loc * heap :=
  let l := fresh (dom σ) in (l, <[l := o]> σ).

(** [{ ...base, ...over }]. *)
Definition spread2 (base : OpenRouterConfig.t) (over : partial)
  : OpenRouterConfig.t :=
  {| OpenRouterConfig.apiKey :=
       JS.nullish (p_apiKey over) (OpenRouterConfig.apiKey base);
     OpenRouterConfig.baseURL :=
       JS.nullish (p_baseURL over) (OpenRouterConfig.baseURL base);
     OpenRouterConfig.model :=
       JS.nullish (p_model over) (OpenRouterConfig.model base) |}.

Definition setServiceType (this : client) (serviceType : ServiceType)
  : client :=
  {| config_ref := config_ref this; service := serviceType |}.

Definition getServiceType (this : client) : ServiceType := service this.

(** [this.config = { ...this.config, ...config }]. *)
Definition updateConfig (this : client) (config : partial) (σ : heap)
  : option (client * heap) :=
  o ← σ !! config_ref this;
  let '(l, σ') := alloc (spread2 o config) σ in
  Some ({| config_ref := l; service := service this |}, σ').

(** [return { ...this.config }]. *)
Definition getConfig (this : client) (σ : heap) : option (loc * heap) :=
  o ← σ !! config_ref this;
  Some (alloc o σ).

(** What the methods of the client read through [this] in the store. *)
Definition read (σ : heap) (this : client) : option OpenRouterClient :=
  o ← σ !! config_ref this;
  Some {| config := o; serviceType := service this |}.

(** [this.generate(prompt, options)] in the store. *)
Definition generate (Number_toString : float → string) (σ : heap)
    (this : client) (env : Env) (fetch : Fetch) (prompt : string)
    (options : option Options.t) : option (JS.Outcome JSON) :=
  this ← read σ this;
  Some (generate Number_toString this env fetch prompt options).

(** What a caller can do to a configuration object it holds: assign to
    one of its fields. *)
Inductive mutation :=
| set_apiKey (v : string)
| set_baseURL (v : string)
| set_model (v : string).

Definition assign (m : mutation) (o : OpenRouterConfig.t)
  : OpenRouterConfig.t :=
  match m with
  | set_apiKey v =>
      {| OpenRouterConfig.apiKey := v;
         OpenRouterConfig.baseURL := OpenRouterConfig.baseURL o;
         OpenRouterConfig.model := OpenRouterConfig.model o |}
  | set_baseURL v =>
      {| OpenRouterConfig.apiKey := OpenRouterConfig.apiKey o;
         OpenRouterConfig.baseURL := v;
         OpenRouterConfig.model := OpenRouterConfig.model o |}
  | set_model v =>
      {| OpenRouterConfig.apiKey := OpenRouterConfig.apiKey o;
         OpenRouterConfig.baseURL := OpenRouterConfig.baseURL o;
         OpenRouterConfig.model := v |}
  end.

(** [l.field = v]. *)
Definition mutate (l : loc) (σ : heap) (m : mutation) : heap :=
  alter (assign m) l σ.

Definition mutate_all (l : loc) (ms : list mutation) (σ : heap) : heap :=
  foldl (mutate l) σ ms.

End Store.

(** * The agents: [types/config.ts], [core/Agent.ts], [core/AgentManager.ts] *)

(** [types/config.ts]: [AgentType]. *)
Module AgentType.
Inductive t :=
| mock_data
| code_generator
| translator
| documentation
| custom.

Global Instance eq_dec : EqDecision t.
Proof. solve_decision. Defined.

(** The string literal an [AgentType] is at run time. *)
Definition str (x : t) : string :=
  match x with
  | mock_data => "mock-data"
  | code_generator => "code-generator"
  | translator => "translator"
  | documentation => "documentation"
  | custom => "custom"
  end.
End AgentType.

(** [types/config.ts]: [AgentFeatures]. *)
Module AgentFeatures.
Record t := mk {
  jsonMode : option bool;
  imageGeneration : option bool;
  schemaValidation : option bool;
  batchProcessing : option bool;
  sessionMemory : option bool;
}.
End AgentFeatures.

(** [types/config.ts]: [AgentConfig]. *)
Module AgentConfig.
Record t := mk {
  name : string;
  type : AgentType.t;
  description : option string;
  openRouter : OpenRouterConfig.t;
  model : option string;
  temperature : option float;
  maxTokens : option float;
  systemPrompt : option string;
  features : option AgentFeatures.t;
}.
End AgentConfig.

(** [Partial<AgentConfig>]: [None] is a property that is not there; a
    property that [AgentConfig] declares optional may also be there and
    hold [undefined] ([Some None]). *)
Module PartialAgentConfig.
Record t := mk {
  name : option string;
  type : option AgentType.t;
  description : option (option string);
  openRouter : option OpenRouterConfig.t;
  model : option (option string);
  temperature : option (option float);
  maxTokens : option (option float);
  systemPrompt : option (option string);
  features : option (option AgentFeatures.t);
}.
End PartialAgentConfig.

(** The properties [getProcessingOptions] reads of its argument (declared
    [any]; the callers pass an [AgentRequestOptions] or nothing). *)
Module AgentRequestOptions.
Record t := mk {
  systemPrompt : option string;
  temperature : option float;
  maxTokens : option float;
  forceJson : option bool;
  model : option string;
}.
End AgentRequestOptions.

(** [||] and [??] with a right operand that may be [undefined]. *)
Module JSOpt.

Definition or (a b : option string) : option string :=
  match JS.truthy_string a with
  | Some s => Some s
  | None => b
  end.

Definition nullish {A} (a b : option A) : option A :=
  match a with
  | Some x => Some x
  | None => b
  end.

End JSOpt.

(** The client by the values it holds: construction and [updateConfig]
    (see [Store] for the references). *)
Definition newOpenRouterClient (config : OpenRouterConfig.t)
    (serviceType : option ServiceType) : OpenRouterClient :=
  {| config := config; serviceType := JS.nullish serviceType custom |}.

Definition clientUpdateConfig (this : OpenRouterClient)
    (changes : Store.partial) : OpenRouterClient :=
  {| config := Store.spread2 (config this) changes;
     serviceType := serviceType this |}.

(** ** [core/Agent.ts]

    An agent by the values it holds.  The methods the class leaves
    abstract are taken by what they return at the call: [getSystemPrompt]
    a string, [getType] an [AgentType]. *)
Module Agent.

Record t := mk {
  config : AgentConfig.t;
  client : OpenRouterClient;
}.

Definition mapAgentTypeToServiceType (this_config : AgentConfig.t)
  : ServiceType :=
  match AgentConfig.type this_config with
  | AgentType.mock_data => mockGenerator
  | AgentType.code_generator => codeGenerator
  | AgentType.translator => translation
  | AgentType.documentation => documentation
  | AgentType.custom => custom
  end.

(** [super(config)], then the client on [config.openRouter]. *)
Definition constructor (config : AgentConfig.t) : t :=
  {| config := config;
     client :=
       newOpenRouterClient (AgentConfig.openRouter config)
                           (Some (mapAgentTypeToServiceType config)) |}.

Definition getProcessingOptions (this : t) (getSystemPrompt : string)
    (requestOptions : option AgentRequestOptions.t) : Options.t :=
  {| Options.systemPrompt :=
       Some (JS.or (requestOptions ≫= AgentRequestOptions.systemPrompt)
                   getSystemPrompt);
     Options.temperature :=
       JSOpt.nullish (requestOptions ≫= AgentRequestOptions.temperature)
                     (AgentConfig.temperature (config this));
     Options.maxTokens :=
       JSOpt.nullish (requestOptions ≫= AgentRequestOptions.maxTokens)
                     (AgentConfig.maxTokens (config this));
     Options.forceJson :=
       JSOpt.nullish (requestOptions ≫= AgentRequestOptions.forceJson)
                     (AgentConfig.features (config this)
                        ≫= AgentFeatures.jsonMode);
     Options.model :=
       JSOpt.or (requestOptions ≫= AgentRequestOptions.model)
                (AgentConfig.model (config this)) |}.




(** [{ ...this.config, ...updates }]. *)
Definition spread (base : AgentConfig.t) (updates : PartialAgentConfig.t)
  : AgentConfig.t :=
  {| AgentConfig.name :=
       JS.nullish (PartialAgentConfig.name updates) (AgentConfig.name base);
     AgentConfig.type :=
       JS.nullish (PartialAgentConfig.type updates) (AgentConfig.type base);
     AgentConfig.description :=
       JS.nullish (PartialAgentConfig.description updates)
                  (AgentConfig.description base);
     AgentConfig.openRouter :=
       JS.nullish (PartialAgentConfig.openRouter updates)
                  (AgentConfig.openRouter base);
     AgentConfig.model :=
       JS.nullish (PartialAgentConfig.model updates) (AgentConfig.model base);
     AgentConfig.temperature :=
       JS.nullish (PartialAgentConfig.temperature updates)
                  (AgentConfig.temperature base);
     AgentConfig.maxTokens :=
       JS.nullish (PartialAgentConfig.maxTokens updates)
                  (AgentConfig.maxTokens base);
     AgentConfig.systemPrompt :=
       JS.nullish (PartialAgentConfig.systemPrompt updates)
                  (AgentConfig.systemPrompt base);
     AgentConfig.features :=
       JS.nullish (PartialAgentConfig.features updates)
                  (AgentConfig.features base) |}.

(** An [OpenRouterConfig] passed where a [Partial<OpenRouterConfig>] is
    expected: its three properties are there. *)
Definition whole (o : OpenRouterConfig.t) : Store.partial :=
  {| Store.p_apiKey := Some (OpenRouterConfig.apiKey o);
     Store.p_baseURL := Some (OpenRouterConfig.baseURL o);
     Store.p_model := Some (OpenRouterConfig.model o) |}.

Definition updateConfig (this : t) (updates : PartialAgentConfig.t) : t :=
  let config := spread (config this) updates in
  match PartialAgentConfig.openRouter updates with
  | Some openRouter =>
      {| config := config;
         client := clientUpdateConfig (client this) (whole openRouter) |}
  | None => {| config := config; client := client this |}
  end.

Definition getConfig (this : t) : AgentConfig.t := config this.

Definition getName (this : t) : string := AgentConfig.name (config this).

Definition getDescription (this : t) (getType : AgentType.t) : string :=
  JS.or (AgentConfig.description (config this))
        (AgentType.str getType +:+ " agent").

End Agent.

(** ** [Map<string, V>]: the entries in insertion order *)
Module JSMap.
Section JSMap.
Context {V : Type}.

Fixpoint get (key : string) (m : list (string * V)) : option V :=
  match m with
  | [] => None
  | (k, v) :: rest => if decide (k = key) then Some v else get key rest
  end.

Definition has (key : string) (m : list (string * V)) : bool :=
  match get key m with
  | Some _ => true
  | None => false
  end.

(** [m.set(key, value)]: a key that is there keeps its place. *)
Fixpoint set (key : string) (value : V) (m : list (string * V))
  : list (string * V) :=
  match m with
  | [] => [(key, value)]
  | (k, v) :: rest =>
      if decide (k = key) then (k, value) :: rest
      else (k, v) :: set key value rest
  end.

(** [m.delete(key)]: the map without the key, and whether it was there. *)
Definition delete (key : string) (m : list (string * V))
  : list (string * V) * bool :=
  (filter (λ kv, kv.1 ≠ key) m, has key m).

End JSMap.
End JSMap.

(** ** [core/AgentManager.ts]

    The registry holds agent objects of some type [A]; of an agent it
    calls [getType], [getDescription] and [getConfig], taken here by what
    they return when called.  A size or a tally is a natural number. *)
Module AgentManager.

Record t (A : Type) := mk {
  agents : list (string * A);
  defaultConfig : OpenRouterConfig.t;
}.
Arguments mk {A} _ _.
Arguments agents {A} _.
Arguments defaultConfig {A} _.

(** The result of [getAgentStats]. *)
Record stats := {
  total : nat;
  byType : list (string * nat);
  names : list string;
}.

(** The result of [validateAgent]. *)
Record validation := {
  isValid : bool;
  errors : list string;
}.

Section AgentManager.
Context {A : Type}.
Variable getType : A → AgentType.t.
Variable getDescription : A → string.
Variable getConfig : A → AgentConfig.t.

Definition constructor (defaultConfig : OpenRouterConfig.t) : t A :=
  {| agents := []; defaultConfig := defaultConfig |}.

Definition registerAgent (this : t A) (name : string) (agent : A) : t A :=
  {| agents := JSMap.set name agent (agents this);
     defaultConfig := defaultConfig this |}.

Definition getAgent (this : t A) (name : string) : option A :=
  JSMap.get name (agents this).

Definition getAgentsByType (this : t A) (type : AgentType.t) : list A :=
  List.filter (λ agent, bool_decide (getType agent = type))
              (map snd (agents this)).

Definition listAgents (this : t A) : list (string * AgentType.t * string) :=
  map (λ entry, (entry.1, getType entry.2, getDescription entry.2))
      (agents this).

Definition getAgentClass (type : AgentType.t)
  : JS.Outcome (AgentConfig.t → A) :=
  JS.Throw
    (JS.Error
       ("Agent type " +:+ AgentType.str type +:+
        " not implemented yet. Use specific agent classes directly.")).

Definition createAgent (this : t A) (config : AgentConfig.t) : JS.Outcome A :=
  AgentClass ← getAgentClass (AgentConfig.type config);
  let agent :=
    AgentClass
      {| AgentConfig.name := AgentConfig.name config;
         AgentConfig.type := AgentConfig.type config;
         AgentConfig.description := AgentConfig.description config;
         AgentConfig.openRouter :=
           Store.spread2 (defaultConfig this)
                         (Agent.whole (AgentConfig.openRouter config));
         AgentConfig.model := AgentConfig.model config;
         AgentConfig.temperature := AgentConfig.temperature config;
         AgentConfig.maxTokens := AgentConfig.maxTokens config;
         AgentConfig.systemPrompt := AgentConfig.systemPrompt config;
         AgentConfig.features := AgentConfig.features config |} in
  JS.Return agent.

Definition removeAgent (this : t A) (name : string) : t A * bool :=
  let '(agents, existed) := JSMap.delete name (agents this) in
  ({| agents := agents; defaultConfig := defaultConfig this |}, existed).

Definition hasAgent (this : t A) (name : string) : bool :=
  JSMap.has name (agents this).

(** [byType[type] = (byType[type] || 0) + 1]. *)
Definition tally (byType : list (string * nat)) (type : string)
  : list (string * nat) :=
  JSMap.set type (default 0 (JSMap.get type byType) + 1)%nat byType.

Definition getAgentStats (this : t A) : stats :=
  let '(byType, names) :=
    foldl (λ acc entry,
             let '(byType, names) := acc in
             let names := names ++ [entry.1] in
             let type := AgentType.str (getType entry.2) in
             (tally byType type, names))
          ([], []) (agents this) in
  {| total := length (agents this); byType := byType; names := names |}.

(** [config.agents] is given by its entries, as [Object.entries] lists
    them; what [console.error] receives is returned beside the new
    state. *)
Definition importConfig (this : t A) (entries : list (string * AgentConfig.t))
  : t A * list (string * JS.Thrown) :=
  let cleared := {| agents := []; defaultConfig := defaultConfig this |} in
  foldl (λ acc entry,
           let '(this, console) := acc in
           match createAgent this entry.2 with
           | JS.Return agent => (registerAgent this entry.1 agent, console)
           | JS.Throw error =>
               (this,
                console ++ [("Failed to import agent " +:+ entry.1 +:+ ":", error)])
           end)
        (cleared, []) entries.

Definition validateAgent (this : t A) (name : string) : validation :=
  match JSMap.get name (agents this) with
  | None =>
      {| isValid := false; errors := ["Agent " +:+ name +:+ " not found"] |}
  | Some agent =>
      let config := getConfig agent in
      let errors := [] in
      let errors :=
        if decide (OpenRouterConfig.apiKey (AgentConfig.openRouter config) = "")
        then errors ++ ["Missing OpenRouter API key"] else errors in
      let errors :=
        if decide (OpenRouterConfig.model (AgentConfig.openRouter config) = "")
        then errors ++ ["Missing model configuration"] else errors in
      let errors :=
        if decide (AgentConfig.name config = "")
        then errors ++ ["Missing agent name"] else errors in
      {| isValid := bool_decide (length errors = 0%nat); errors := errors |}
  end.

End AgentManager.
End AgentManager.

(** * The model catalogue: [types/api.ts], [core/OpenRouterAPI.ts] *)

Module Pricing.
Record t := mk {
  prompt : string;
  completion : string;
  image : option string;
  request : option string;
}.
End Pricing.

Module Architecture.
Record t := mk {
  modality : string;
  tokenizer : string;
  instruct_type : option string;
}.
End Architecture.

Module TopProvider.
Record t := mk {
  max_completion_tokens : option float;
  is_moderated : option bool;
}.
End TopProvider.

Module PerRequestLimits.
Record t := mk {
  prompt_tokens : option string;
  completion_tokens : option string;
}.
End PerRequestLimits.

Module OpenRouterModel.
Record t := mk {
  id : string;
  name : string;
  description : option string;
  pricing : Pricing.t;
  context_length : float;
  architecture : Architecture.t;
  top_provider : TopProvider.t;
  per_request_limits : option PerRequestLimits.t;
  supported_generation_methods : option (list string);
}.
End OpenRouterModel.

Module OpenRouterAPI.

Definition jsonCapablePatterns : list JS.RegExp :=
  [ JS.Anchored "openai/";
    JS.Anchored "gpt-";
    JS.Anchored "nitro";
    JS.Anchored "anthropic/claude-3";
    JS.Anchored "google/gemini" ].

(** The callback of the [filter] in [filterJsonCapableModels]. *)
Definition keeps (model : OpenRouterModel.t) : bool :=
  let isKnownJsonCapable :=
    JS.some (λ pattern, JS.test pattern (OpenRouterModel.id model))
            jsonCapablePatterns in
  let hasJsonSupport :=
    JS.nullish
      ((λ methods, bool_decide ("json_object" ∈ methods))
         <$> OpenRouterModel.supported_generation_methods model)
      false in
  isKnownJsonCapable || hasJsonSupport.

Definition filterJsonCapableModels (models : list OpenRouterModel.t)
  : list OpenRouterModel.t :=
  List.filter keeps models.

(** The constant [allFallbacks] of [getFallbackModels]. *)
Definition allFallbacks : list OpenRouterModel.t :=
  [ {| OpenRouterModel.id := "anthropic/claude-3.5-sonnet";
       OpenRouterModel.name := "Claude 3.5 Sonnet";
       OpenRouterModel.description := Some "Most intelligent model - JSON capable";
       OpenRouterModel.pricing :=
         {| Pricing.prompt := "0.003"; Pricing.completion := "0.015";
            Pricing.image := None; Pricing.request := None |};
       OpenRouterModel.context_length := 200000;
       OpenRouterModel.architecture :=
         {| Architecture.modality := "text"; Architecture.tokenizer := "Claude";
            Architecture.instruct_type := None |};
       OpenRouterModel.top_provider :=
         {| TopProvider.max_completion_tokens := None;
            TopProvider.is_moderated := None |};
       OpenRouterModel.per_request_limits := None;
       OpenRouterModel.supported_generation_methods := Some ["json_object"] |};
    {| OpenRouterModel.id := "openai/gpt-4.1-nano";
       OpenRouterModel.name := "GPT-4.1 Nano";
       OpenRouterModel.description :=
         Some "Fastest and cheapest GPT-4.1 model - JSON capable";
       OpenRouterModel.pricing :=
         {| Pricing.prompt := "0.000100"; Pricing.completion := "0.000400";
            Pricing.image := None; Pricing.request := None |};
       OpenRouterModel.context_length := 1047576;
       OpenRouterModel.architecture :=
         {| Architecture.modality := "text"; Architecture.tokenizer := "GPT";
            Architecture.instruct_type := None |};
       OpenRouterModel.top_provider :=
         {| TopProvider.max_completion_tokens := None;
            TopProvider.is_moderated := None |};
       OpenRouterModel.per_request_limits := None;
       OpenRouterModel.supported_generation_methods := Some ["json_object"] |};
    {| OpenRouterModel.id := "anthropic/claude-3-haiku";
       OpenRouterModel.name := "Claude 3 Haiku";
       OpenRouterModel.description := Some "Fast and cost-effective - JSON capable";
       OpenRouterModel.pricing :=
         {| Pricing.prompt := "0.00025"; Pricing.completion := "0.00125";
            Pricing.image := None; Pricing.request := None |};
       OpenRouterModel.context_length := 200000;
       OpenRouterModel.architecture :=
         {| Architecture.modality := "text"; Architecture.tokenizer := "Claude";
            Architecture.instruct_type := None |};
       OpenRouterModel.top_provider :=
         {| TopProvider.max_completion_tokens := None;
            TopProvider.is_moderated := None |};
       OpenRouterModel.per_request_limits := None;
       OpenRouterModel.supported_generation_methods := Some ["json_object"] |};
    {| OpenRouterModel.id := "meta-llama/llama-3.1-8b-instruct:free";
       OpenRouterModel.name := "Llama 3.1 8B Instruct (Free)";
       OpenRouterModel.description := Some "Free open-source model";
       OpenRouterModel.pricing :=
         {| Pricing.prompt := "0"; Pricing.completion := "0";
            Pricing.image := None; Pricing.request := None |};
       OpenRouterModel.context_length := 131072;
       OpenRouterModel.architecture :=
         {| Architecture.modality := "text"; Architecture.tokenizer := "Llama";
            Architecture.instruct_type := None |};
       OpenRouterModel.top_provider :=
         {| TopProvider.max_completion_tokens := None;
            TopProvider.is_moderated := None |};
       OpenRouterModel.per_request_limits := None;
       OpenRouterModel.supported_generation_methods := Some [] |} ].

Definition getFallbackModels (jsonOnly : option bool)
  : list OpenRouterModel.t :=
  let jsonOnly := JS.nullish jsonOnly false in
  if jsonOnly then filterJsonCapableModels allFallbacks else allFallbacks.

End OpenRouterAPI.

(** * The [create] command: the defaults per agent type
    ([cli/commands/create.ts]) *)
Module CreateCommand.

Definition isValidAgentType (type : string) : bool :=
  bool_decide
    (type ∈ ["mock-data"; "code-generator"; "translator"; "documentation";
             "custom"]).

Definition getDefaultTemperature (type : AgentType.t) : float :=
  match type with
  | AgentType.mock_data => 0.7
  | AgentType.code_generator => 0.3
  | AgentType.translator => 0.1
  | AgentType.documentation => 0.4
  | AgentType.custom => 0.5
  end%float.

Definition getDefaultMaxTokens (type : AgentType.t) : float :=
  match type with
  | AgentType.mock_data => 4000
  | AgentType.code_generator => 3000
  | AgentType.translator => 1500
  | AgentType.documentation => 4000
  | AgentType.custom => 2000
  end%float.

Definition getDefaultModel (type : AgentType.t) : string :=
  match type with
  | AgentType.mock_data => "anthropic/claude-3.5-sonnet"
  | AgentType.code_generator => "anthropic/claude-3.5-sonnet"
  | AgentType.translator => "anthropic/claude-3-haiku"
  | AgentType.documentation => "anthropic/claude-3.5-sonnet"
  | AgentType.custom => "anthropic/claude-3.5-sonnet"
  end.

Definition getDefaultFeatures (type : AgentType.t) : AgentFeatures.t :=
  match type with
  | AgentType.mock_data =>
      {| AgentFeatures.jsonMode := Some true;
         AgentFeatures.imageGeneration := Some true;
         AgentFeatures.schemaValidation := Some true;
         AgentFeatures.batchProcessing := Some true;
         AgentFeatures.sessionMemory := None |}
  | AgentType.code_generator =>
      {| AgentFeatures.jsonMode := Some false;
         AgentFeatures.imageGeneration := None;
         AgentFeatures.schemaValidation := None;
         AgentFeatures.batchProcessing := Some true;
         AgentFeatures.sessionMemory := Some true |}
  | AgentType.translator =>
      {| AgentFeatures.jsonMode := None;
         AgentFeatures.imageGeneration := None;
         AgentFeatures.schemaValidation := None;
         AgentFeatures.batchProcessing := Some true;
         AgentFeatures.sessionMemory := Some false |}
  | AgentType.documentation =>
      {| AgentFeatures.jsonMode := Some false;
         AgentFeatures.imageGeneration := None;
         AgentFeatures.schemaValidation := None;
         AgentFeatures.batchProcessing := Some true;
         AgentFeatures.sessionMemory := Some true |}
  | AgentType.custom =>
      {| AgentFeatures.jsonMode := Some false;
         AgentFeatures.imageGeneration := None;
         AgentFeatures.schemaValidation := None;
         AgentFeatures.batchProcessing := Some false;
         AgentFeatures.sessionMemory := Some false |}
  end.

End CreateCommand.

(** * Notions the properties are stated with *)

(** [sub] occurs in [s]. *)
Definition contains (sub s : string) : Prop :=
  ∃ pre post, s = pre +:+ sub +:+ post.

(** A priority chain: the first candidate that is set and not empty, the
    fallback when there is none. *)
Fixpoint first_set (candidates : list (option string)) (fallback : string)
  : string :=
  match candidates with
  | [] => fallback
  | c :: rest =>
      match c with
      | Some s => if decide (s = "") then first_set rest fallback else s
      | None => first_set rest fallback
      end
  end.

(** The name of the environment variable [getModelForService] reads first,
    per service type. *)
Definition serviceModelVariable (t : ServiceType) : string :=
  match t with
  | mockGenerator => "OPENROUTER_MOCK_GENERATOR_MODEL"
  | codeGenerator => "OPENROUTER_CODE_GENERATOR_MODEL"
  | translation => "OPENROUTER_TRANSLATION_MODEL"
  | documentation => "OPENROUTER_DOCUMENTATION_MODEL"
  | custom => "OPENROUTER_DEFAULT_MODEL"
  end.

(** The temperature table of the specification. *)
Definition documented_temperature (t : ServiceType) : float :=
  match t with
  | mockGenerator => 0.7
  | codeGenerator => 0.3
  | translation => 0.1
  | documentation => 0.4
  | custom => 0.5
  end%float.

(** The content of a choice, when the choice is an object whose [message]
    is an object with a [content] property. *)
Definition content_of (choice : JSON) : Value :=
  match choice with
  | JObject props =>
      match Json.own props "message" with
      | Some (JObject message) => Json.own message "content"
      | _ => None
      end
  | _ => None
  end.

(** The message [generate] gives the error it throws for a caught value. *)
Definition failure (this : OpenRouterClient) (caught : JS.Thrown) : JS.Thrown :=
  JS.Error
    ("Failed to generate with " +:+ ServiceType_str (serviceType this) +:+
     ": " +:+
     match caught with
     | JS.Error message => message
     | JS.NotAnError => "Unknown error"
     end).

(** The budget per service type for the limits [high] and [default]
    of a model family, in the order mockGenerator, codeGenerator,
    translation, documentation, custom. *)
Definition budgets (this : OpenRouterClient) (m c t d u : float) : float :=
  match serviceType this with
  | mockGenerator => m
  | codeGenerator => c
  | translation => t
  | documentation => d
  | custom => u
  end.

(** The tally of a type in [byType] (nothing counts as zero). *)
Definition count_of (byType : list (string * nat)) (type : AgentType.t) : nat :=
  default 0%nat (JSMap.get (AgentType.str type) byType).

(** The loop body of [getAgentStats]. *)
Definition stats_step {A : Type} (getType : A → AgentType.t)
    (acc : list (string * nat) * list string) (entry : string * A)
  : list (string * nat) * list string :=
  let '(byType, names) := acc in
  let names := names ++ [entry.1] in
  let type := AgentType.str (getType entry.2) in
  (AgentManager.tally byType type, names).

(** What [importConfig] reports for an entry it fails to import. *)
Definition import_failure (entry : string * AgentConfig.t)
  : string * JS.Thrown :=
  ("Failed to import agent " +:+ entry.1 +:+ ":",
   JS.Error
     ("Agent type " +:+ AgentType.str (AgentConfig.type entry.2) +:+
      " not implemented yet. Use specific agent classes directly.")).

(** ** Data of the examples *)

(** A configuration for the examples. *)
Definition sonnet : OpenRouterConfig.t :=
  {| OpenRouterConfig.apiKey := "sk-or-test";
     OpenRouterConfig.baseURL := "https://openrouter.ai/api/v1";
     OpenRouterConfig.model := "anthropic/claude-3.5-sonnet" |}.

(** The options of a call that sets nothing but [model]. *)
Definition only_model (m : string) : Options.t :=
  {| Options.systemPrompt := None; Options.temperature := None;
     Options.maxTokens := None; Options.forceJson := None;
     Options.model := Some m |}.

(** A stand-in for Number::toString in the examples below, whose outcomes
    do not depend on how a number prints. *)
Definition no_digits : float → string := λ _, "".

(** The rate-limit response of the specification. *)
Definition rate_limited : Response.t :=
  {| Response.status := 429;
     Response.statusText := "Too Many Requests";
     Response.json :=
       JS.Return
         (JObject [("error", JObject [("message", JString "rate limited")])]) |}.

(** An error response with an empty body, which is not JSON. *)
Definition bad_gateway : Response.t :=
  {| Response.status := 502;
     Response.statusText := "Bad Gateway";
     Response.json :=
       JS.Throw (JS.Error "Unexpected end of JSON input") |}.

(** A success response with [choices: []]. *)
Definition no_choices : Response.t :=
  {| Response.status := 200;
     Response.statusText := "OK";
     Response.json := JS.Return (JObject [("choices", JArray [])]) |}.

(** A success response without [choices]. *)
Definition choices_absent : Response.t :=
  {| Response.status := 200;
     Response.statusText := "OK";
     Response.json := JS.Return (JObject [("id", JString "gen-1")]) |}.

(** A success status with an empty body. *)
Definition empty_ok : Response.t :=
  {| Response.status := 200;
     Response.statusText := "OK";
     Response.json := JS.Throw (JS.Error "Unexpected end of JSON input") |}.

(** A configuration naming a model of no known family. *)
Definition llama : OpenRouterConfig.t :=
  {| OpenRouterConfig.apiKey := "sk-or-test";
     OpenRouterConfig.baseURL := "https://openrouter.ai/api/v1";
     OpenRouterConfig.model := "meta-llama/llama-3.1-8b-instruct:free" |}.

(** The two system prompts of the mock generator. *)
Definition mock_prompt_strict : string :=
  "You are a mock data generator. Generate realistic mock data based on the provided schema and examples. You MUST return only valid JSON. Do not include any markdown formatting, code blocks, or explanations. The response must be parseable JSON.".

Definition mock_prompt_plain : string :=
  "You are a mock data generator. Generate realistic mock data based on the provided schema and examples. Return only valid JSON without markdown formatting or explanations.".

(** A catalogue entry outside the pattern table that lists [json_object]
    among its generation methods. *)
Definition mistral_large : OpenRouterModel.t :=
  {| OpenRouterModel.id := "mistralai/mistral-large";
     OpenRouterModel.name := "Mistral Large";
     OpenRouterModel.description := None;
     OpenRouterModel.pricing :=
       {| Pricing.prompt := "0.002"; Pricing.completion := "0.006";
          Pricing.image := None; Pricing.request := None |};
     OpenRouterModel.context_length := 128000;
     OpenRouterModel.architecture :=
       {| Architecture.modality := "text"; Architecture.tokenizer := "Mistral";
          Architecture.instruct_type := None |};
     OpenRouterModel.top_provider :=
       {| TopProvider.max_completion_tokens := None;
          TopProvider.is_moderated := None |};
     OpenRouterModel.per_request_limits := None;
     OpenRouterModel.supported_generation_methods :=
       Some ["json_object"; "text"] |}.

(** * Properties *)

(** ** Strings: occurrence of a text in another *)

Lemma append_cons (c : ascii) (a b : string) :
  String c a +:+ b = String c (a +:+ b).
Proof. reflexivity. Qed.

Lemma append_empty_l (a : string) : "" +:+ a = a.
Proof. reflexivity. Qed.

Lemma append_assoc (a b c : string) : (a +:+ b) +:+ c = a +:+ b +:+ c.
Proof.
  induction a as [|x a IH]; [done|].
  by rewrite !append_cons, IH.
Qed.

Lemma append_empty_r (a : string) : a +:+ "" = a.
Proof.
  induction a as [|x a IH]; [done|].
  by rewrite append_cons, IH.
Qed.

Lemma contains_refl (s : string) : contains s s.
Proof. exists "", "". by rewrite append_empty_l, append_empty_r. Qed.

Lemma contains_here (sub post : string) : contains sub (sub +:+ post).
Proof. by exists "", post. Qed.

Lemma contains_later (pre sub s : string) :
  contains sub s → contains sub (pre +:+ s).
Proof.
  intros (p & q & ->). exists (pre +:+ p), q. by rewrite append_assoc.
Qed.

Lemma contains_trans (a b c : string) :
  contains a b → contains b c → contains a c.
Proof.
  intros (p & q & ->) (p' & q' & ->).
  exists (p' +:+ p), (q +:+ q'). by rewrite !append_assoc.
Qed.

Lemma prefix_spec (p s : string) :
  String.prefix p s = true ↔ ∃ post, s = p +:+ post.
Proof.
  revert s. induction p as [|a p IH]; intros s.
  - destruct s; split; eauto.
  - destruct s as [|b s]; simpl.
    + split; [done | by intros [? ?]].
    + destruct (ascii_dec a b) as [->|Hne].
      * rewrite IH. split; intros [post E]; exists post.
        -- by rewrite append_cons, E.
        -- rewrite append_cons in E. congruence.
      * split; [done | intros [post E]].
        rewrite append_cons in E. congruence.
Qed.

Lemma includes_empty (needle : string) :
  JS.includes needle "" = String.prefix needle "" || false.
Proof. reflexivity. Qed.

Lemma includes_cons (needle : string) (c : ascii) (s : string) :
  JS.includes needle (String c s) =
  String.prefix needle (String c s) || JS.includes needle s.
Proof. reflexivity. Qed.

Lemma includes_spec (needle s : string) :
  JS.includes needle s = true ↔ contains needle s.
Proof.
  split.
  - induction s as [|c s IH]; intros H.
    + rewrite includes_empty, orb_false_r in H.
      apply prefix_spec in H as [post ->]. apply contains_here.
    + rewrite includes_cons in H. apply orb_true_iff in H as [H|H].
      * apply prefix_spec in H as [post ->]. apply contains_here.
      * apply (contains_later (String c "")), IH, H.
  - intros (pre & post & ->).
    induction pre as [|c pre IH].
    + rewrite append_empty_l.
      assert (String.prefix needle (needle +:+ post) = true) as Hp
        by (apply prefix_spec; eauto).
      destruct (needle +:+ post).
      * by rewrite includes_empty, Hp.
      * by rewrite includes_cons, Hp.
    + by rewrite append_cons, includes_cons, IH, orb_true_r.
Qed.

Lemma includes_false (needle s : string) :
  ¬ contains needle s → JS.includes needle s = false.
Proof.
  intros H. destruct (JS.includes needle s) eqn:E; [|done].
  by apply includes_spec in E.
Qed.

(** Solve [contains x (a +:+ b +:+ ... +:+ x +:+ ...)]. *)
Ltac find_occurrence :=
  solve [ repeat first
            [ apply contains_here
            | apply contains_refl
            | apply contains_later ] ].

(** ** The service profile resolver *)

Lemma serviceModelKey_eq (this : OpenRouterClient) :
  "OPENROUTER_" +:+ getServiceKey this +:+ "_MODEL" =
  serviceModelVariable (serviceType this).
Proof. unfold getServiceKey. by destruct (serviceType this). Qed.

Lemma getModelForService_chain (this : OpenRouterClient) (env : Env) :
  getModelForService this env =
  first_set [ env !! serviceModelVariable (serviceType this);
              env !! "OPENROUTER_DEFAULT_MODEL" ]
            (OpenRouterConfig.model (config this)).
Proof.
  unfold getModelForService. rewrite serviceModelKey_eq.
  unfold JS.truthy_string, first_set.
  destruct (env !! serviceModelVariable _) as [a|];
    [destruct (decide (a = ""))|];
    (destruct (env !! "OPENROUTER_DEFAULT_MODEL") as [b|];
       [destruct (decide (b = ""))|]); done.
Qed.

Lemma first_set_cons (c : option string) (rest : list (option string))
    (fallback : string) :
  first_set (c :: rest) fallback = JS.or c (first_set rest fallback).
Proof.
  unfold JS.or, JS.truthy_string. cbn [first_set].
  destruct c as [s|]; [|done]. by destruct (decide (s = "")).
Qed.

Lemma first_set_nil (fallback : string) : first_set [] fallback = fallback.
Proof. reflexivity. Qed.

(** C1, as stated, fails: with the category-specific variable and the
    global default-model variable both set, a call that passes an explicit
    [options.model] sends the explicit model, not the one the environment
    names. *)
Lemma explicit_model_beats_environment :
  let this := {| config := sonnet; serviceType := mockGenerator |} in
  let env : Env :=
    <["OPENROUTER_MOCK_GENERATOR_MODEL" := "google/gemini-pro"]>
      (<["OPENROUTER_DEFAULT_MODEL" := "openai/gpt-4o"]> ∅) in
  getModelForService this env = "google/gemini-pro" ∧
  APIRequest.model
    (requestBody this env "hello" (Some (only_model "mistralai/mistral-7b")))
  = "mistralai/mistral-7b" ∧
  APIRequest.model
    (requestBody this env "hello" (Some (only_model "mistralai/mistral-7b")))
  ≠ getModelForService this env.
Proof. vm_compute. repeat split; congruence. Qed.

(** C1, amended: the model of the wire request is the first of these that
    is set and not empty: the explicit [options.model], the
    category-specific environment variable, the global default-model
    environment variable; the configured model when none of them is. *)
Theorem model_resolution_order (this : OpenRouterClient) (env : Env)
    (prompt : string) (options : option Options.t) :
  APIRequest.model (requestBody this env prompt options) =
  first_set [ options ≫= Options.model;
              env !! serviceModelVariable (serviceType this);
              env !! "OPENROUTER_DEFAULT_MODEL" ]
            (OpenRouterConfig.model (config this)).
Proof.
  assert (APIRequest.model (requestBody this env prompt options) =
          JS.or (options ≫= Options.model) (getModelForService this env)) as ->.
  { unfold requestBody. by destruct (_ && _). }
  rewrite getModelForService_chain.
  unfold JS.or, JS.truthy_string.
  destruct (options ≫= Options.model) as [m|]; [|done].
  cbn [first_set]. by destruct (decide (m = "")).
Qed.

(** C3: when the resolved model contains [claude-3], the default
    max-token budget is 8000 for mockGenerator, 6000 for codeGenerator,
    3000 for translation, 8000 for documentation and 4000 for custom. *)
Theorem claude3_max_tokens (this : OpenRouterClient) (env : Env) :
  contains "claude-3" (getModelForService this env) →
  getMaxTokensForService this env =
  match serviceType this with
  | mockGenerator => 8000
  | codeGenerator => 6000
  | translation => 3000
  | documentation => 8000
  | custom => 4000
  end%float.
Proof.
  intros H%includes_spec. unfold getMaxTokensForService. rewrite H.
  unfold getTokenLimitByService. by destruct (serviceType this).
Qed.

(** An instance: the translation client on the configured Claude 3.5
    model. *)
Lemma claude3_max_tokens_witness :
  getMaxTokensForService {| config := sonnet; serviceType := translation |} ∅
  = 3000%float.
Proof.
  apply (claude3_max_tokens {| config := sonnet; serviceType := translation |} ∅).
  exists "anthropic/", ".5-sonnet". reflexivity.
Defined.

(** C4: the default temperature is the constant of the bound service type,
    whatever the configuration (and so the model), the environment, the
    prompt and the other options of the call; it is the temperature of the
    wire request whenever the call sets none. *)
Theorem temperature_by_category (cfg : OpenRouterConfig.t) (t : ServiceType)
    (env : Env) (prompt : string) (sp : option string) (mt : option float)
    (fj : option bool) (m : option string) :
  let this := {| config := cfg; serviceType := t |} in
  getTemperatureForService this = documented_temperature t ∧
  APIRequest.temperature (requestBody this env prompt None)
  = documented_temperature t ∧
  APIRequest.temperature
    (requestBody this env prompt
       (Some {| Options.systemPrompt := sp; Options.temperature := None;
                Options.maxTokens := mt; Options.forceJson := fj;
                Options.model := m |}))
  = documented_temperature t.
Proof.
  intros this. split; [by destruct t|].
  unfold requestBody. split; destruct (_ && _); by destruct t.
Qed.

(** ** The wire request *)

Lemma requestBody_model (this : OpenRouterClient) (env : Env)
    (prompt : string) (options : option Options.t) :
  APIRequest.model (requestBody this env prompt options) =
  JS.or (options ≫= Options.model) (getModelForService this env).
Proof. unfold requestBody. by destruct (_ && _). Qed.

Lemma requestBody_model_chain (this : OpenRouterClient) (env : Env)
    (prompt : string) (options : option Options.t) :
  APIRequest.model (requestBody this env prompt options) =
  first_set [ options ≫= Options.model;
              env !! serviceModelVariable (serviceType this);
              env !! "OPENROUTER_DEFAULT_MODEL" ]
            (OpenRouterConfig.model (config this)).
Proof.
  rewrite requestBody_model, getModelForService_chain.
  symmetry. apply first_set_cons.
Qed.

(** The budget [getMaxTokensForService] gives, by the family of the
    resolved model. *)
Lemma max_tokens_by_family (this : OpenRouterClient) (env : Env) :
  let model := getModelForService this env in
  let budget := getMaxTokensForService this env in
  (contains "claude-3" model →
   budget = budgets this 8000 6000 3000 8000 4000) ∧
  (¬ contains "claude-3" model → contains "gpt-4" model →
   budget = budgets this 6000 4500 2250 6000 3000) ∧
  (¬ contains "claude-3" model → ¬ contains "gpt-4" model →
   contains "gpt-3.5" model →
   budget = budgets this 3000 2250 1500 3000 2000) ∧
  (¬ contains "claude-3" model → ¬ contains "gpt-4" model →
   ¬ contains "gpt-3.5" model → contains "gemini" model →
   budget = budgets this 7000 5250 2625 7000 3500) ∧
  (¬ contains "claude-3" model → ¬ contains "gpt-4" model →
   ¬ contains "gpt-3.5" model → ¬ contains "gemini" model →
   budget = budgets this 4000 3000 1500 4000 2000).
Proof.
  intros model budget. subst model budget.
  unfold getMaxTokensForService, getTokenLimitByService, budgets.
  split; [|split; [|split; [|split]]].
  - intros ->%includes_spec. by destruct (serviceType this).
  - intros ->%includes_false ->%includes_spec. by destruct (serviceType this).
  - intros ->%includes_false ->%includes_false ->%includes_spec.
    by destruct (serviceType this).
  - intros ->%includes_false ->%includes_false ->%includes_false
      ->%includes_spec.
    by destruct (serviceType this).
  - intros ->%includes_false ->%includes_false ->%includes_false
      ->%includes_false.
    by destruct (serviceType this).
Qed.

Lemma requestBody_max_tokens (this : OpenRouterClient) (env : Env)
    (prompt : string) (options : option Options.t) :
  APIRequest.max_tokens (requestBody this env prompt options) =
  JS.nullish (options ≫= Options.maxTokens) (getMaxTokensForService this env).
Proof. unfold requestBody. by destruct (_ && _). Qed.

Lemma requestBody_temperature (this : OpenRouterClient) (env : Env)
    (prompt : string) (options : option Options.t) :
  APIRequest.temperature (requestBody this env prompt options) =
  JS.nullish (options ≫= Options.temperature) (getTemperatureForService this).
Proof. unfold requestBody. by destruct (_ && _). Qed.

Lemma requestBody_messages (this : OpenRouterClient) (env : Env)
    (prompt : string) (options : option Options.t) :
  APIRequest.messages (requestBody this env prompt options) =
  [ {| APIMessage.role := system;
       APIMessage.content :=
         JS.or (options ≫= Options.systemPrompt)
               (getSystemPromptForService this (options ≫= Options.forceJson)) |};
    {| APIMessage.role := user; APIMessage.content := prompt |} ].
Proof. unfold requestBody. by destruct (_ && _). Qed.

Lemma requestBody_response_format (this : OpenRouterClient) (env : Env)
    (prompt : string) (options : option Options.t) :
  APIRequest.response_format (requestBody this env prompt options) =
  if JS.truthy (options ≫= Options.forceJson)
     && supportsJsonMode (APIRequest.model (requestBody this env prompt options))
  then Some {| ResponseFormat.type := json_object |}
  else None.
Proof.
  rewrite requestBody_model. unfold requestBody. by destruct (_ && _).
Qed.

(** The pattern table, read as a statement about the model identifier. *)
Lemma supportsJsonMode_spec (modelId : string) :
  supportsJsonMode modelId = true ↔
  ∃ lit rest,
    lit ∈ ["openai/"; "gpt-"; "nitro"; "anthropic/claude-3"; "google/gemini"]
    ∧ modelId = lit +:+ rest.
Proof.
  unfold supportsJsonMode, JS.some, jsonCapablePatterns. cbn [existsb JS.test].
  rewrite orb_false_r, !orb_true_iff, !prefix_spec. split.
  - intros [[r ->]|[[r ->]|[[r ->]|[[r ->]|[r ->]]]]];
      eexists _, r; (split; [|reflexivity]); set_solver.
  - intros (lit & r & Hin & ->).
    rewrite !elem_of_cons, elem_of_nil in Hin.
    destruct Hin as [->|[->|[->|[->|[->|[]]]]]]; eauto 10.
Qed.

Example json_capable_gpt_4_1_nano :
  supportsJsonMode "openai/gpt-4.1-nano" = true.
Proof. reflexivity. Qed.

Example json_capable_llama :
  supportsJsonMode "meta-llama/llama-3.1-8b-instruct:free" = false.
Proof. reflexivity. Qed.

(** C2: the wire request carries [response_format], with the value
    [{type: "json_object"}], exactly when [forceJson] is true and the
    resolved model matches the pattern table; otherwise the field is
    absent, in the request object and in the object that is serialised.
    The resolved model is the model of the request: the first that is set
    and not empty of [options.model], the category-specific environment
    variable and the global default-model variable, the configured model
    otherwise. *)
Theorem response_format_iff (this : OpenRouterClient) (env : Env)
    (prompt : string) (options : option Options.t) :
  let body := requestBody this env prompt options in
  let resolved :=
    first_set [ options ≫= Options.model;
                env !! serviceModelVariable (serviceType this);
                env !! "OPENROUTER_DEFAULT_MODEL" ]
              (OpenRouterConfig.model (config this)) in
  let negotiated :=
    options ≫= Options.forceJson = Some true ∧
    supportsJsonMode resolved = true in
  APIRequest.model body = resolved ∧
  (APIRequest.response_format body
   = Some {| ResponseFormat.type := json_object |} ↔ negotiated) ∧
  (APIRequest.response_format body = None ↔ ¬ negotiated) ∧
  (get (Some (Wire.request body)) "response_format"
   = JS.Return (Some (JObject [("type", JString "json_object")]))
   ↔ negotiated) ∧
  (get (Some (Wire.request body)) "response_format" = JS.Return None
   ↔ ¬ negotiated) ∧
  get (Some (Wire.request body)) "model" = JS.Return (Some (JString resolved)).
Proof.
  intros body resolved negotiated. subst negotiated.
  assert (APIRequest.model body = resolved) as Hmodel
    by apply requestBody_model_chain.
  assert (get (Some (Wire.request body)) "response_format" =
          JS.Return
            (match APIRequest.response_format body with
             | Some f =>
                 Some (JObject
                   [("type",
                     JString (Wire.ResponseFormatType_str (ResponseFormat.type f)))])
             | None => None
             end)) as ->.
  { unfold Wire.request, get. by destruct (APIRequest.response_format body). }
  assert (get (Some (Wire.request body)) "model"
          = JS.Return (Some (JString resolved))) as ->.
  { rewrite <- Hmodel. reflexivity. }
  split; [done|].
  assert (APIRequest.response_format body =
          if JS.truthy (options ≫= Options.forceJson) && supportsJsonMode resolved
          then Some {| ResponseFormat.type := json_object |}
          else None) as ->.
  { rewrite <- Hmodel. apply requestBody_response_format. }
  destruct (options ≫= Options.forceJson) as [[|]|];
    destruct (supportsJsonMode resolved); cbn; naive_solver.
Qed.

(** The four combinations of [forceJson] and capability, on a client
    configured with a model of the table and a call that may name one
    outside it. *)
Example response_format_four_combinations :
  let this := {| config := sonnet; serviceType := mockGenerator |} in
  let call fj m :=
    APIRequest.response_format
      (requestBody this ∅ "three users"
         (Some {| Options.systemPrompt := None; Options.temperature := None;
                  Options.maxTokens := None; Options.forceJson := fj;
                  Options.model := m |})) in
  call (Some true) None = Some {| ResponseFormat.type := json_object |} ∧
  call (Some true) (Some "meta-llama/llama-3.1-8b-instruct:free") = None ∧
  call (Some false) None = None ∧
  call (Some false) (Some "meta-llama/llama-3.1-8b-instruct:free") = None ∧
  call None None = None.
Proof. by vm_compute. Qed.

(** C9: with [options.maxTokens] unset, [max_tokens] of the wire request is
    what [getMaxTokensForService] computes from the model of
    [getModelForService], that is, from the category-specific environment
    variable, the global default-model variable and the configured model:
    the budget of the first family (claude-3, gpt-4, gpt-3.5, gemini) whose
    marker occurs in that model, the conservative one when none does.  The
    explicit [options.model], which is the model the request names, has no
    part in it. *)
Theorem max_tokens_ignores_explicit_model (this : OpenRouterClient)
    (env : Env) (prompt : string) (sp : option string) (t : option float)
    (fj : option bool) (m : string) :
  let options :=
    Some {| Options.systemPrompt := sp; Options.temperature := t;
            Options.maxTokens := None; Options.forceJson := fj;
            Options.model := Some m |} in
  let resolved :=
    first_set [ env !! serviceModelVariable (serviceType this);
                env !! "OPENROUTER_DEFAULT_MODEL" ]
              (OpenRouterConfig.model (config this)) in
  let max_tokens := APIRequest.max_tokens (requestBody this env prompt options) in
  (max_tokens = getMaxTokensForService this env ∧
   max_tokens = APIRequest.max_tokens (requestBody this env prompt None) ∧
   APIRequest.model (requestBody this env prompt options)
   = JS.or (Some m) (getModelForService this env)) ∧
  getModelForService this env = resolved ∧
  (contains "claude-3" resolved →
   max_tokens = budgets this 8000 6000 3000 8000 4000) ∧
  (¬ contains "claude-3" resolved → contains "gpt-4" resolved →
   max_tokens = budgets this 6000 4500 2250 6000 3000) ∧
  (¬ contains "claude-3" resolved → ¬ contains "gpt-4" resolved →
   contains "gpt-3.5" resolved →
   max_tokens = budgets this 3000 2250 1500 3000 2000) ∧
  (¬ contains "claude-3" resolved → ¬ contains "gpt-4" resolved →
   ¬ contains "gpt-3.5" resolved → contains "gemini" resolved →
   max_tokens = budgets this 7000 5250 2625 7000 3500) ∧
  (¬ contains "claude-3" resolved → ¬ contains "gpt-4" resolved →
   ¬ contains "gpt-3.5" resolved → ¬ contains "gemini" resolved →
   max_tokens = budgets this 4000 3000 1500 4000 2000).
Proof.
  intros options resolved max_tokens.
  assert (max_tokens = getMaxTokensForService this env) as Hbudget
    by (subst max_tokens; by rewrite requestBody_max_tokens).
  assert (getModelForService this env = resolved) as Hresolved
    by apply getModelForService_chain.
  split; [|split; [done|]].
  - split; [done|].
    subst max_tokens. by rewrite !requestBody_max_tokens, requestBody_model.
  - rewrite Hbudget, <- Hresolved. apply max_tokens_by_family.
Qed.

(** The call names a GPT-3.5 model, the configuration a Claude 3 model:
    the request carries the Claude 3 budget of the custom service (4000),
    not the GPT-3.5 one (2000). *)
Lemma max_tokens_ignores_explicit_model_witness :
  APIRequest.max_tokens
    (requestBody {| config := sonnet; serviceType := custom |} ∅ "hello"
       (Some {| Options.systemPrompt := None; Options.temperature := None;
                Options.maxTokens := None; Options.forceJson := None;
                Options.model := Some "openai/gpt-3.5-turbo" |}))
  = 4000%float.
Proof.
  destruct
    (max_tokens_ignores_explicit_model
       {| config := sonnet; serviceType := custom |} ∅ "hello"
       None None None "openai/gpt-3.5-turbo")
    as (_ & _ & Hclaude & _).
  apply Hclaude. exists "anthropic/", ".5-sonnet". reflexivity.
Defined.

(** An instance of the above: the request names a GPT-3.5 model and carries
    the Claude 3 budget of the configured model (4000), not the GPT-3.5
    one (2000). *)
Example max_tokens_of_configured_model :
  let this := {| config := sonnet; serviceType := custom |} in
  let body := requestBody this ∅ "hello" (Some (only_model "openai/gpt-3.5-turbo")) in
  APIRequest.model body = "openai/gpt-3.5-turbo" ∧
  APIRequest.max_tokens body = 4000%float.
Proof. by vm_compute. Qed.

(** C10: an empty [options.model] or [options.systemPrompt] gives way to
    the resolver's value, as an absent one does; a given
    [options.temperature] or [options.maxTokens] is sent as it is, zero
    included, and only an absent one gives way to the resolver's value. *)
Theorem falsy_overrides (this : OpenRouterClient) (env : Env)
    (prompt : string) (sp m : option string) (t mt : option float)
    (fj : option bool) (x : float) :
  let call sp t mt m :=
    requestBody this env prompt
      (Some {| Options.systemPrompt := sp; Options.temperature := t;
               Options.maxTokens := mt; Options.forceJson := fj;
               Options.model := m |}) in
  APIRequest.model (call sp t mt (Some "")) = getModelForService this env ∧
  APIRequest.model (call sp t mt None) = getModelForService this env ∧
  APIRequest.messages (call (Some "") t mt m) !! 0%nat
  = Some {| APIMessage.role := system;
            APIMessage.content := getSystemPromptForService this fj |} ∧
  APIRequest.messages (call None t mt m) !! 0%nat
  = Some {| APIMessage.role := system;
            APIMessage.content := getSystemPromptForService this fj |} ∧
  APIRequest.temperature (call sp (Some 0%float) mt m) = 0%float ∧
  APIRequest.max_tokens (call sp t (Some 0%float) m) = 0%float ∧
  APIRequest.temperature (call sp (Some x) mt m) = x ∧
  APIRequest.max_tokens (call sp t (Some x) m) = x ∧
  APIRequest.temperature (call sp None mt m) = getTemperatureForService this ∧
  APIRequest.max_tokens (call sp t None m) = getMaxTokensForService this env.
Proof.
  intros call. subst call. cbv beta.
  rewrite !requestBody_model, !requestBody_messages,
    !requestBody_temperature, !requestBody_max_tokens.
  repeat split.
Qed.

(** ** [generate]: the round trip *)

Lemma ok_true (r : Response.t) :
  Response.ok r = true ↔ (200 ≤ Response.status r ∧ Response.status r ≤ 299)%N.
Proof.
  unfold Response.ok. rewrite andb_true_iff, !N.leb_le. tauto.
Qed.

Lemma ok_false (r : Response.t) :
  Response.ok r = false ↔
  ¬ (200 ≤ Response.status r ∧ Response.status r ≤ 299)%N.
Proof. rewrite <- ok_true. destruct (Response.ok r); naive_solver. Qed.

Lemma bind_Return {A B} (a : A) (f : A → JS.Outcome B) :
  JS.Return a ≫= f = f a.
Proof. reflexivity. Qed.

Lemma get_first (items : list JSON) :
  get (Some (JArray items)) "0" = JS.Return (head items).
Proof. reflexivity. Qed.

Lemma get_optional_object (props : list (string * JSON)) (key : string) :
  get_optional (Some (JObject props)) key = JS.Return (Json.own props key).
Proof. reflexivity. Qed.

Lemma get_message_content (choice : JSON) :
  get_optional (Some choice) "message"
  ≫= (λ message, get_optional message "content")
  = JS.Return (content_of choice).
Proof.
  destruct choice as [| | |s|items|props]; try reflexivity.
  rewrite get_optional_object, bind_Return. unfold content_of.
  by destruct (Json.own props "message") as [[| | |s| |]|].
Qed.

Lemma first_content_array (props : list (string * JSON)) (choices : list JSON) :
  Json.own props "choices" = Some (JArray choices) →
  first_content (JObject props) = JS.Return (head choices ≫= content_of).
Proof.
  intros H. unfold first_content. cbn [get]. rewrite bind_Return, H.
  rewrite get_first, bind_Return.
  destruct choices as [|choice rest]; [reflexivity|].
  apply get_message_content.
Qed.

Section Generate_properties.
Variable Number_toString : float → string.

Abbreviation generate' := (generate Number_toString).
Abbreviation request_of this env prompt options :=
  (fetch_init Number_toString this (requestBody this env prompt options)).

(** The outcome of [generate] depends on the network through the one
    request it sends. *)
Lemma generate_one_request (this : OpenRouterClient) (env : Env)
    (fetch1 fetch2 : Fetch) (prompt : string) (options : option Options.t) :
  fetch1 (fetch_url this) (request_of this env prompt options)
  = fetch2 (fetch_url this) (request_of this env prompt options) →
  generate' this env fetch1 prompt options
  = generate' this env fetch2 prompt options.
Proof. intros H. unfold generate. by rewrite H. Qed.

(** C5: on a response whose status is not in 200-299, [generate] fails
    with one error; its message names the service type, the status, the
    status text and the serialised error body, which is the parsed body
    or [{}] when the body does not parse. *)
Theorem non_2xx_fails (this : OpenRouterClient) (env : Env) (fetch : Fetch)
    (prompt : string) (options : option Options.t) (response : Response.t) :
  fetch (fetch_url this) (request_of this env prompt options)
  = JS.Return response →
  ¬ (200 ≤ Response.status response ∧ Response.status response ≤ 299)%N →
  let errorData :=
    match Response.json response with
    | JS.Return parsed => parsed
    | JS.Throw _ => JObject []
    end in
  let message :=
    "Failed to generate with " +:+ ServiceType_str (serviceType this) +:+
    ": " +:+ "OpenRouter API error: " +:+
    pretty (Response.status response) +:+ " " +:+
    Response.statusText response +:+ " - " +:+
    JSON_stringify Number_toString errorData in
  generate' this env fetch prompt options = JS.Throw (JS.Error message) ∧
  contains (pretty (Response.status response)) message ∧
  contains (Response.statusText response) message ∧
  contains (JSON_stringify Number_toString errorData) message ∧
  contains (ServiceType_str (serviceType this)) message.
Proof.
  intros Hfetch Hstatus%ok_false errorData message.
  split; [|repeat split; subst message; find_occurrence].
  unfold generate. rewrite Hfetch, bind_Return, Hstatus. cbn [negb].
  subst message errorData. by destruct (Response.json response).
Qed.

(** C6, amended: on a response with a status in 200-299 whose parsed
    body is an object with a [choices] array, [generate] returns, and
    what it returns is [choices[0].message.content] when that is there
    and truthy, the empty string when the array is empty or its first
    element has no message or no content. *)
Theorem empty_choice_yields_empty_string (this : OpenRouterClient)
    (env : Env) (fetch : Fetch) (prompt : string)
    (options : option Options.t) (response : Response.t)
    (props : list (string * JSON)) (choices : list JSON) :
  fetch (fetch_url this) (request_of this env prompt options)
  = JS.Return response →
  (200 ≤ Response.status response ∧ Response.status response ≤ 299)%N →
  Response.json response = JS.Return (JObject props) →
  Json.own props "choices" = Some (JArray choices) →
  let result := generate' this env fetch prompt options in
  result = JS.Return (or_empty (head choices ≫= content_of)) ∧
  (choices = [] → result = JS.Return (JString "")) ∧
  (head choices ≫= content_of = None → result = JS.Return (JString "")) ∧
  (∀ s, head choices ≫= content_of = Some (JString s) →
        result = JS.Return (JString s)).
Proof.
  intros Hfetch Hstatus%ok_true Hjson Hchoices result.
  assert (result = JS.Return (or_empty (head choices ≫= content_of))) as ->.
  { subst result. unfold generate.
    rewrite Hfetch, bind_Return, Hstatus. cbn [negb].
    by rewrite Hjson, bind_Return, (first_content_array _ _ Hchoices). }
  repeat split.
  - by intros ->.
  - by intros ->.
  - intros s ->. cbn. by destruct (decide (s = "")) as [->|].
Qed.

End Generate_properties.

(** *** The round trip on the responses of the examples *)

(** The rate-limit example of the specification: the message names the
    status, the error text of the body and the service type. *)
Lemma rate_limited_fails :
  ∃ message,
    generate no_digits {| config := sonnet; serviceType := mockGenerator |} ∅
      (λ _ _, JS.Return rate_limited) "hello" None
    = JS.Throw (JS.Error message) ∧
    contains "429" message ∧
    contains "rate limited" message ∧
    contains "mockGenerator" message.
Proof.
  destruct
    (non_2xx_fails no_digits
       {| config := sonnet; serviceType := mockGenerator |} ∅
       (λ _ _, JS.Return rate_limited) "hello" None rate_limited eq_refl)
    as (Hfails & Hstatus & _ & Hbody & Hservice).
  { cbn. lia. }
  eexists. split; [exact Hfails|]. split; [exact Hstatus|].
  split; [|exact Hservice].
  eapply contains_trans; [|exact Hbody].
  apply includes_spec. reflexivity.
Defined.

(** A 200 response with [choices: []] gives the empty string. *)
Lemma empty_choices_returns_empty_string :
  generate no_digits {| config := sonnet; serviceType := custom |} ∅
    (λ _ _, JS.Return no_choices) "hello" None
  = JS.Return (JString "").
Proof.
  destruct
    (empty_choice_yields_empty_string no_digits
       {| config := sonnet; serviceType := custom |} ∅
       (λ _ _, JS.Return no_choices) "hello" None no_choices
       [("choices", JArray [])] [] eq_refl)
    as (_ & Hempty & _).
  - cbn. lia.
  - reflexivity.
  - reflexivity.
  - apply Hempty. reflexivity.
Defined.

(** A body that does not parse stands as [{}] in the message. *)
Example unparseable_error_body :
  generate no_digits {| config := sonnet; serviceType := documentation |} ∅
    (λ _ _, JS.Return bad_gateway) "hello" None
  = JS.Throw
      (JS.Error
         "Failed to generate with documentation: OpenRouter API error: 502 Bad Gateway - {}").
Proof. reflexivity. Qed.

(** C6, as stated, fails: a 200 response whose body has no [choices] makes
    [generate] fail with the normalised error; it does not return the
    empty string. *)
Lemma absent_choices_is_an_error :
  let result :=
    generate no_digits {| config := sonnet; serviceType := custom |} ∅
      (λ _ _, JS.Return choices_absent) "hello" None in
  Response.ok choices_absent = true ∧
  result =
    JS.Throw
      (JS.Error
         "Failed to generate with custom: Cannot read properties of undefined (reading '0')") ∧
  result ≠ JS.Return (JString "").
Proof. vm_compute. repeat split; congruence. Qed.

(** ** The configuration object *)

Module StoreFacts.
Import Store.

Lemma alloc_fresh (o : OpenRouterConfig.t) (σ : heap) (l : loc) (σ' : heap) :
  alloc o σ = (l, σ') → σ !! l = None ∧ σ' = <[l := o]> σ.
Proof.
  unfold alloc. intros [= <- <-]. split; [|done].
  apply not_elem_of_dom, is_fresh.
Qed.

Lemma getConfig_Some (this : client) (σ σ' : heap) (l : loc) :
  getConfig this σ = Some (l, σ') →
  ∃ o, σ !! config_ref this = Some o ∧ σ !! l = None ∧ σ' = <[l := o]> σ.
Proof.
  unfold getConfig. destruct (σ !! config_ref this) as [o|] eqn:E; [|done].
  cbn. intros H.
  assert (alloc o σ = (l, σ')) as [? ?]%alloc_fresh by congruence.
  eauto.
Qed.

(** Assignments through a reference leave every other object alone. *)
Lemma mutate_all_other (l k : loc) (ms : list mutation) (σ : heap) :
  k ≠ l → mutate_all l ms σ !! k = σ !! k.
Proof.
  intros Hne. unfold mutate_all. revert σ.
  induction ms as [|m ms IH]; intros σ; [done|].
  cbn [foldl]. rewrite IH. unfold mutate. by rewrite lookup_alter_ne.
Qed.

(** They do reach the object behind the reference. *)
Lemma mutate_here (l : loc) (m : mutation) (σ : heap) :
  mutate l σ m !! l = assign m <$> σ !! l.
Proof. unfold mutate. by rewrite lookup_alter_eq. Qed.

Lemma read_ext (σ1 σ2 : heap) (this : client) :
  σ1 !! config_ref this = σ2 !! config_ref this → read σ1 this = read σ2 this.
Proof. unfold read. by intros ->. Qed.

(** The reference handed to the constructor stays shared with the caller:
    an assignment through it is seen by the client. *)
Example constructor_keeps_the_reference :
  let σ : heap := {[ 1%positive := sonnet ]} in
  let this := constructor 1%positive None in
  read (mutate 1%positive σ (set_model "openai/gpt-4o")) this
  = Some {| config := assign (set_model "openai/gpt-4o") sonnet;
            serviceType := custom |}.
Proof. reflexivity. Qed.

(** C7: [getConfig] returns a reference to a new object holding the
    values of the client's configuration; whatever the caller assigns
    through that reference (more generally, whatever becomes of the object
    behind it), the object behind [this.config] is what it was, and so is
    what the methods of the client, [generate] among them, read and
    compute. *)
Theorem getConfig_defensive_copy (σ σ' : heap) (this : client) (l : loc)
    (ms : list mutation) :
  getConfig this σ = Some (l, σ') →
  let σ'' := mutate_all l ms σ' in
  l ≠ config_ref this ∧
  σ' !! l = σ !! config_ref this ∧
  σ'' !! config_ref this = σ !! config_ref this ∧
  read σ'' this = read σ this ∧
  (∀ Number_toString env fetch prompt options,
     generate Number_toString σ'' this env fetch prompt options
     = generate Number_toString σ this env fetch prompt options) ∧
  (∀ τ : heap,
     (∀ k, k ≠ l → τ !! k = σ' !! k) →
     read τ this = read σ this).
Proof.
  intros (o & Hthis & Hfresh & ->)%getConfig_Some σ''.
  assert (l ≠ config_ref this) as Hne by congruence.
  assert (σ'' !! config_ref this = σ !! config_ref this) as Hsame.
  { subst σ''. rewrite mutate_all_other by done.
    by rewrite lookup_insert_ne. }
  repeat split; try done.
  - by rewrite lookup_insert_eq.
  - by apply read_ext.
  - intros. unfold generate. by rewrite (read_ext _ _ _ Hsame).
  - intros τ Hframe. apply read_ext.
    rewrite Hframe by done. by rewrite lookup_insert_ne.
Qed.

(** An instance: the caller overwrites the key and the model of the copy;
    the copy changes, the client reads what it read before. *)
Lemma getConfig_defensive_copy_witness :
  let σ : heap := {[ 1%positive := sonnet ]} in
  let this := {| config_ref := 1%positive; service := translation |} in
  ∃ l σ',
    getConfig this σ = Some (l, σ') ∧
    OpenRouterConfig.apiKey <$>
      mutate_all l [set_apiKey "leaked"; set_model "openai/gpt-4o"] σ' !! l
    = Some "leaked" ∧
    read (mutate_all l [set_apiKey "leaked"; set_model "openai/gpt-4o"] σ') this
    = Some {| config := sonnet; serviceType := translation |}.
Proof.
  intros σ this. eexists _, _. split; [reflexivity|]. split.
  - reflexivity.
  - destruct
      (getConfig_defensive_copy σ _ this _
         [set_apiKey "leaked"; set_model "openai/gpt-4o"] eq_refl)
      as (_ & _ & _ & Hread & _).
    exact Hread.
Defined.

End StoreFacts.

(** What [getDefaultConfig] returns, field by field: the key and the model
    come from the environment when set and not empty, the base URL is a
    constant. *)
Lemma getDefaultConfig_fields (env : Env) :
  OpenRouterConfig.apiKey (getDefaultConfig env)
  = first_set [env !! "OPENROUTER_API_KEY"] "" ∧
  OpenRouterConfig.baseURL (getDefaultConfig env)
  = "https://openrouter.ai/api/v1" ∧
  OpenRouterConfig.model (getDefaultConfig env)
  = first_set [env !! "OPENROUTER_DEFAULT_MODEL"] "anthropic/claude-3.5-sonnet".
Proof.
  unfold getDefaultConfig, JS.or, JS.truthy_string. cbn.
  repeat split.
  - destruct (env !! "OPENROUTER_API_KEY") as [a|]; [|done].
    by destruct (decide (a = "")).
  - destruct (env !! "OPENROUTER_DEFAULT_MODEL") as [a|]; [|done].
    by destruct (decide (a = "")).
Qed.

(** C8, at an environment that sets the three variables: the key and the
    model of the returned configuration are those of the environment; the
    base URL is the hardcoded one, not the one [OPENROUTER_BASE_URL]
    names. *)
Theorem getDefaultConfig_ignores_base_url :
  let env : Env :=
    <["OPENROUTER_BASE_URL" := "http://localhost:8080/v1"]>
      (<["OPENROUTER_API_KEY" := "sk-or-123"]>
         (<["OPENROUTER_DEFAULT_MODEL" := "openai/gpt-4o"]> ∅)) in
  env !! "OPENROUTER_BASE_URL" = Some "http://localhost:8080/v1" ∧
  getDefaultConfig env =
    {| OpenRouterConfig.apiKey := "sk-or-123";
       OpenRouterConfig.baseURL := "https://openrouter.ai/api/v1";
       OpenRouterConfig.model := "openai/gpt-4o" |}.
Proof. by vm_compute. Qed.

(** * Further properties of the client *)

(** ** [generate]: the failure channel *)

Section Generate_failures.
Variable Number_toString : float → string.

(** X1: whatever the network does, what [generate] throws is an [Error]
    whose message starts with [Failed to generate with <serviceType>: ]. *)
Theorem generate_throws_normalised (this : OpenRouterClient) (env : Env)
    (fetch : Fetch) (prompt : string) (options : option Options.t)
    (e : JS.Thrown) :
  generate Number_toString this env fetch prompt options = JS.Throw e →
  ∃ cause,
    e = JS.Error ("Failed to generate with " +:+
                  ServiceType_str (serviceType this) +:+ ": " +:+ cause).
Proof.
  unfold generate.
  match goal with |- JS.catch ?body _ = _ → _ => destruct body as [v|caught] end;
    cbn [JS.catch]; [done|].
  intros [= <-]. eauto.
Qed.

(** X2: when [fetch] rejects, [generate] rejects with the cause's message
    behind the prefix, or with [Unknown error] when the cause is not an
    [Error]. *)
Theorem generate_transport_failure (this : OpenRouterClient) (env : Env)
    (fetch : Fetch) (prompt : string) (options : option Options.t)
    (e : JS.Thrown) :
  fetch (fetch_url this)
        (fetch_init Number_toString this (requestBody this env prompt options))
  = JS.Throw e →
  generate Number_toString this env fetch prompt options
  = JS.Throw (failure this e).
Proof. intros H. unfold generate. by rewrite H. Qed.

(** X3: a body that does not parse is an error on a 2xx response (the
    parser's message is passed on), whereas on any other status it only
    empties the error body of the message. *)
Theorem generate_unparseable_body (this : OpenRouterClient) (env : Env)
    (fetch : Fetch) (prompt : string) (options : option Options.t)
    (response : Response.t) (e : JS.Thrown) :
  fetch (fetch_url this)
        (fetch_init Number_toString this (requestBody this env prompt options))
  = JS.Return response →
  Response.json response = JS.Throw e →
  generate Number_toString this env fetch prompt options
  = JS.Throw
      (if Response.ok response then failure this e
       else
         failure this
           (JS.Error
              ("OpenRouter API error: " +:+ pretty (Response.status response)
               +:+ " " +:+ Response.statusText response +:+ " - {}"))).
Proof.
  intros Hfetch Hjson. unfold generate.
  rewrite Hfetch, bind_Return, Hjson.
  by destruct (Response.ok response).
Qed.

(** X4: on a 2xx response with a parsed body, [generate] returns exactly
    when the body is not [null] and has a [choices] that is neither absent
    nor [null]; in every other case it fails. *)
Theorem generate_returns_iff (this : OpenRouterClient) (env : Env)
    (fetch : Fetch) (prompt : string) (options : option Options.t)
    (response : Response.t) (data : JSON) :
  fetch (fetch_url this)
        (fetch_init Number_toString this (requestBody this env prompt options))
  = JS.Return response →
  Response.ok response = true →
  Response.json response = JS.Return data →
  (∃ v, generate Number_toString this env fetch prompt options = JS.Return v)
  ↔ data ≠ JNull ∧
    ∃ choices, get (Some data) "choices" = JS.Return (Some choices)
               ∧ choices ≠ JNull.
Proof.
  intros Hfetch Hok Hjson. unfold generate.
  rewrite Hfetch, bind_Return, Hok. cbn [negb]. rewrite Hjson, bind_Return.
  unfold first_content.
  destruct data as [| | | | |props]; cbn [get].
  1: { split; [by intros [? ?] | by intros [? _]]. }
  1-4: rewrite bind_Return; cbn [get JS.catch mbind JS.Outcome_bind];
       (split; [by intros [? ?] | by intros [_ (? & ? & _)]]).
  rewrite bind_Return.
  destruct (Json.own props "choices") as [choices|] eqn:E; cycle 1.
  { cbn. split; [by intros [? ?] | by intros [_ (? & ? & _)]]. }
  assert (choices = JNull ∨
          choices ≠ JNull ∧
          ∃ first, get (Some choices) "0" = JS.Return first)
    as [->|[Hne [first Hfirst]]].
  { destruct choices; eauto. }
  { cbn. split; [by intros [? ?] | intros [_ (? & [= <-] & ?)]; done]. }
  rewrite Hfirst, bind_Return.
  assert (∃ c, get_optional first "message"
               ≫= (λ message, get_optional message "content") = JS.Return c)
    as [c Hc].
  { destruct first as [j|]; [|by eexists].
    rewrite get_message_content. eauto. }
  rewrite Hc. cbn. split; [|eauto]. intros _. split; [done|eauto].
Qed.

End Generate_failures.

(** The examples of the failure channel: an error status with an empty
    body, a rejected [fetch], a success status with an empty body, and a
    success with no choice. *)
Lemma generate_throws_normalised_witness :
  ∃ cause,
    failure {| config := sonnet; serviceType := documentation |}
      (JS.Error "OpenRouter API error: 502 Bad Gateway - {}")
    = JS.Error ("Failed to generate with documentation: " +:+ cause).
Proof.
  apply (generate_throws_normalised no_digits
           {| config := sonnet; serviceType := documentation |} ∅
           (λ _ _, JS.Return bad_gateway) "hello" None).
  reflexivity.
Defined.

Lemma generate_transport_failure_witness :
  generate no_digits {| config := sonnet; serviceType := translation |} ∅
    (λ _ _, JS.Throw (JS.Error "fetch failed")) "hello" None
  = JS.Throw (JS.Error "Failed to generate with translation: fetch failed") ∧
  generate no_digits {| config := sonnet; serviceType := translation |} ∅
    (λ _ _, JS.Throw JS.NotAnError) "hello" None
  = JS.Throw (JS.Error "Failed to generate with translation: Unknown error").
Proof.
  split.
  - apply (generate_transport_failure no_digits
             {| config := sonnet; serviceType := translation |} ∅
             (λ _ _, JS.Throw (JS.Error "fetch failed")) "hello" None
             (JS.Error "fetch failed")).
    reflexivity.
  - apply (generate_transport_failure no_digits
             {| config := sonnet; serviceType := translation |} ∅
             (λ _ _, JS.Throw JS.NotAnError) "hello" None JS.NotAnError).
    reflexivity.
Defined.

Lemma generate_unparseable_body_witness :
  generate no_digits {| config := sonnet; serviceType := custom |} ∅
    (λ _ _, JS.Return empty_ok) "hello" None
  = JS.Throw
      (JS.Error "Failed to generate with custom: Unexpected end of JSON input").
Proof.
  apply (generate_unparseable_body no_digits
           {| config := sonnet; serviceType := custom |} ∅
           (λ _ _, JS.Return empty_ok) "hello" None empty_ok
           (JS.Error "Unexpected end of JSON input"));
    reflexivity.
Defined.

Lemma generate_returns_iff_witness :
  ∃ v,
    generate no_digits {| config := sonnet; serviceType := custom |} ∅
      (λ _ _, JS.Return no_choices) "hello" None
    = JS.Return v.
Proof.
  apply (generate_returns_iff no_digits
           {| config := sonnet; serviceType := custom |} ∅
           (λ _ _, JS.Return no_choices) "hello" None no_choices
           (JObject [("choices", JArray [])]));
    [reflexivity | reflexivity | reflexivity |].
  split; [discriminate|].
  exists (JArray []). split; [reflexivity | discriminate].
Defined.

(** ** The token budget *)

(** X5: the default token budget is a whole number between 1500 and 8000,
    whatever the configuration, the environment and the service type. *)
Theorem max_tokens_bounds (this : OpenRouterClient) (env : Env) :
  let budget := getMaxTokensForService this env in
  (1500 <=? budget)%float = true ∧
  (budget <=? 8000)%float = true ∧
  JS.Math_floor budget = budget.
Proof.
  unfold getMaxTokensForService, getTokenLimitByService.
  destruct (JS.includes "claude-3" _); [by destruct (serviceType this)|].
  destruct (JS.includes "gpt-4" _); [by destruct (serviceType this)|].
  destruct (JS.includes "gpt-3.5" _); [by destruct (serviceType this)|].
  destruct (JS.includes "gemini" _); by destruct (serviceType this).
Qed.

(** X6: the families are tried in the order claude-3, gpt-4, gpt-3.5,
    gemini, and the first whose marker occurs in the resolved model sets
    the budget; a model with none of the markers gets the conservative
    one. *)
Theorem family_budgets (this : OpenRouterClient) (env : Env) :
  let model := getModelForService this env in
  let budget := getMaxTokensForService this env in
  (¬ contains "claude-3" model → contains "gpt-4" model →
   budget = budgets this 6000 4500 2250 6000 3000) ∧
  (¬ contains "claude-3" model → ¬ contains "gpt-4" model →
   contains "gpt-3.5" model →
   budget = budgets this 3000 2250 1500 3000 2000) ∧
  (¬ contains "claude-3" model → ¬ contains "gpt-4" model →
   ¬ contains "gpt-3.5" model → contains "gemini" model →
   budget = budgets this 7000 5250 2625 7000 3500) ∧
  (¬ contains "claude-3" model → ¬ contains "gpt-4" model →
   ¬ contains "gpt-3.5" model → ¬ contains "gemini" model →
   budget = budgets this 4000 3000 1500 4000 2000).
Proof.
  intros model budget. subst model budget.
  unfold getMaxTokensForService, getTokenLimitByService, budgets.
  repeat split.
  - intros ->%includes_false ->%includes_spec. by destruct (serviceType this).
  - intros ->%includes_false ->%includes_false ->%includes_spec.
    by destruct (serviceType this).
  - intros ->%includes_false ->%includes_false ->%includes_false
      ->%includes_spec.
    by destruct (serviceType this).
  - intros ->%includes_false ->%includes_false ->%includes_false
      ->%includes_false.
    by destruct (serviceType this).
Qed.

Lemma family_budgets_witness :
  getMaxTokensForService
    {| config := llama; serviceType := codeGenerator |}
    (<["OPENROUTER_DEFAULT_MODEL" := "openai/gpt-3.5-turbo"]> ∅)
  = 2250%float.
Proof.
  destruct
    (family_budgets {| config := llama; serviceType := codeGenerator |}
       (<["OPENROUTER_DEFAULT_MODEL" := "openai/gpt-3.5-turbo"]> ∅))
    as (_ & Hgpt35 & _).
  apply Hgpt35.
  - intros H%includes_spec. discriminate.
  - intros H%includes_spec. discriminate.
  - exists "openai/", "-turbo". reflexivity.
Defined.

(** ** The system prompt *)

(** X7: [forceJson] changes the default system prompt of the mock
    generator only, and it does so whatever the model: with a model outside
    the pattern table the request asks for JSON in its system prompt and
    carries no [response_format]. *)
Theorem strict_prompt_without_json_mode (this : OpenRouterClient) (env : Env)
    (prompt : string) (t mt : option float) (m : option string)
    (fj : option bool) :
  let options :=
    Some {| Options.systemPrompt := None; Options.temperature := t;
            Options.maxTokens := mt; Options.forceJson := Some true;
            Options.model := m |} in
  let body := requestBody this env prompt options in
  (serviceType this ≠ mockGenerator →
   getSystemPromptForService this fj = getSystemPromptForService this None) ∧
  (serviceType this = mockGenerator →
   getSystemPromptForService this (Some false) = mock_prompt_plain ∧
   getSystemPromptForService this None = mock_prompt_plain ∧
   getSystemPromptForService this (Some true) = mock_prompt_strict ∧
   mock_prompt_strict ≠ mock_prompt_plain) ∧
  (serviceType this = mockGenerator →
   supportsJsonMode (APIRequest.model body) = false →
   APIRequest.messages body =
     [ {| APIMessage.role := system; APIMessage.content := mock_prompt_strict |};
       {| APIMessage.role := user; APIMessage.content := prompt |} ] ∧
   APIRequest.response_format body = None).
Proof.
  intros options body. split; [|split].
  - intros Hne. unfold getSystemPromptForService.
    destruct (serviceType this); [done|..]; by destruct fj as [[|]|].
  - intros Hmock. unfold getSystemPromptForService. rewrite Hmock.
    repeat split. discriminate.
  - intros Hmock Hno. split.
    + subst body. rewrite requestBody_messages.
      unfold getSystemPromptForService. by rewrite Hmock.
    + subst body. rewrite requestBody_response_format.
      fold options. by rewrite Hno, andb_false_r.
Qed.

Lemma strict_prompt_without_json_mode_witness :
  let body :=
    requestBody {| config := llama; serviceType := mockGenerator |} ∅
      "three users"
      (Some {| Options.systemPrompt := None; Options.temperature := None;
               Options.maxTokens := None; Options.forceJson := Some true;
               Options.model := None |}) in
  APIRequest.messages body !! 0%nat
  = Some {| APIMessage.role := system;
            APIMessage.content := mock_prompt_strict |} ∧
  APIRequest.response_format body = None.
Proof.
  destruct
    (strict_prompt_without_json_mode
       {| config := llama; serviceType := mockGenerator |} ∅
       "three users" None None None None)
    as (_ & _ & H).
  destruct H as [Hmessages Hformat]; [reflexivity | reflexivity |].
  split; [|exact Hformat].
  cbv zeta. by rewrite Hmessages.
Defined.

(** ** The default configuration *)

Lemma first_set_nonempty (candidates : list (option string))
    (fallback : string) :
  fallback ≠ "" → first_set candidates fallback ≠ "".
Proof.
  intros Hne. induction candidates as [|[c|] rest IH]; cbn; [done| |done].
  by destruct (decide (c = "")).
Qed.

(** X10: a client built from [getDefaultConfig] never names an empty model
    in a request, whatever the environment, the service type and the
    options of the call. *)
Theorem default_config_model_nonempty (env : Env) (t : ServiceType)
    (prompt : string) (options : option Options.t) :
  let this := {| config := getDefaultConfig env; serviceType := t |} in
  OpenRouterConfig.model (getDefaultConfig env) ≠ "" ∧
  getModelForService this env ≠ "" ∧
  APIRequest.model (requestBody this env prompt options) ≠ "".
Proof.
  intros this.
  assert (OpenRouterConfig.model (getDefaultConfig env) ≠ "") as Hcfg.
  { destruct (getDefaultConfig_fields env) as (_ & _ & ->).
    by apply first_set_nonempty. }
  assert (getModelForService this env ≠ "") as Hmodel.
  { rewrite getModelForService_chain. by apply first_set_nonempty. }
  repeat split; try done.
  rewrite requestBody_model. unfold JS.or, JS.truthy_string.
  destruct (options ≫= Options.model) as [m|]; [|done].
  by destruct (decide (m = "")).
Qed.

(** ** The configuration object, continued *)

Module StoreMore.
Import Store.

(** X8: [updateConfig] binds [this.config] to a new object that merges the
    given properties over the old ones; the old object is left as it was,
    and assignments through a reference to it no longer reach the
    client. *)
Theorem updateConfig_rebinds (σ σ' : heap) (this this' : client)
    (p : partial) (ms : list mutation) :
  updateConfig this p σ = Some (this', σ') →
  ∃ o,
    σ !! config_ref this = Some o ∧
    σ' !! config_ref this = Some o ∧
    config_ref this' ≠ config_ref this ∧
    service this' = service this ∧
    read σ' this'
    = Some {| config := spread2 o p; serviceType := service this |} ∧
    read (mutate_all (config_ref this) ms σ') this' = read σ' this'.
Proof.
  unfold updateConfig.
  destruct (σ !! config_ref this) as [o|] eqn:Hthis; [|done].
  cbn. intros [= <- <-]. exists o.
  assert (σ !! fresh (dom σ) = None) as Hfresh
    by apply not_elem_of_dom, is_fresh.
  assert (fresh (dom σ) ≠ config_ref this) as Hne by congruence.
  repeat split; try done.
  - by rewrite lookup_insert_ne.
  - unfold read. cbn. by rewrite lookup_insert_eq.
  - apply StoreFacts.read_ext. cbn. by apply StoreFacts.mutate_all_other.
Qed.

Lemma updateConfig_rebinds_witness :
  let σ : heap := {[ 1%positive := sonnet ]} in
  let this := constructor 1%positive (Some translation) in
  let p := {| p_apiKey := Some "new"; p_baseURL := None; p_model := None |} in
  ∃ this' σ',
    updateConfig this p σ = Some (this', σ') ∧
    read (mutate_all 1%positive [set_model "openai/gpt-4o"] σ') this'
    = Some {| config := assign (set_apiKey "new") sonnet;
              serviceType := translation |}.
Proof.
  intros σ this p. eexists _, _. split; [reflexivity|].
  destruct
    (updateConfig_rebinds σ _ this _ p [set_model "openai/gpt-4o"] eq_refl)
    as (o & Ho & _ & _ & _ & Hread & Hsame).
  assert (o = sonnet) as ->
    by (apply (inj Some); rewrite <- Ho; reflexivity).
  exact (eq_trans Hsame Hread).
Defined.

(** X9: the client keeps the very object its constructor was given: an
    assignment the caller makes through its own reference is what the
    client reads from then on. *)
Theorem constructor_shares_config (σ : heap) (l : loc)
    (o : OpenRouterConfig.t) (t : option ServiceType) (m : mutation) :
  σ !! l = Some o →
  read σ (constructor l t)
  = Some {| config := o; serviceType := JS.nullish t custom |} ∧
  read (mutate l σ m) (constructor l t)
  = Some {| config := assign m o; serviceType := JS.nullish t custom |}.
Proof.
  intros H. unfold read, constructor. cbn.
  by rewrite StoreFacts.mutate_here, H.
Qed.

Lemma constructor_shares_config_witness :
  read (mutate 1%positive {[ 1%positive := sonnet ]} (set_apiKey "other"))
       (constructor 1%positive None)
  = Some {| config := assign (set_apiKey "other") sonnet;
            serviceType := custom |}.
Proof.
  apply (constructor_shares_config {[ 1%positive := sonnet ]} 1%positive
           sonnet None (set_apiKey "other")).
  reflexivity.
Defined.

End StoreMore.

(** * Properties of the agents *)

(** ** The request of an agent: [getProcessingOptions], then the client *)

Lemma or_JSOpt_or (a b : option string) (fallback : string) :
  JS.or (JSOpt.or a b) fallback = JS.or a (JS.or b fallback).
Proof.
  unfold JS.or, JSOpt.or, JS.truthy_string.
  destruct a as [s|]; [|done].
  destruct (decide (s = "")) as [->|Hs]; [done|].
  by destruct (decide (s = "")).
Qed.

Lemma or_Some_or (a : option string) (b fallback : string) :
  JS.or (Some (JS.or a b)) fallback = JS.or a (JS.or (Some b) fallback).
Proof.
  unfold JS.or, JS.truthy_string.
  destruct a as [s|]; [|done].
  destruct (decide (s = "")) as [->|Hs]; [done|].
  by destruct (decide (s = "")).
Qed.

Section Agent_request.
Variables (this : Agent.t) (env : Env) (prompt : string).
Variables (getSystemPrompt : string) (requestOptions : option AgentRequestOptions.t).

Abbreviation agent_body :=
  (requestBody (Agent.client this) env prompt
     (Some (Agent.getProcessingOptions this getSystemPrompt requestOptions))).

(** X11: through an agent the model of the wire request is the first of
    these that is set and not empty: the model of the request options, the
    model of the agent's configuration, the category-specific environment
    variable, the global default-model variable; the model of the client's
    configuration otherwise. *)
Theorem agent_model_order :
  APIRequest.model agent_body =
  first_set
    [ requestOptions ≫= AgentRequestOptions.model;
      AgentConfig.model (Agent.config this);
      env !! serviceModelVariable (serviceType (Agent.client this));
      env !! "OPENROUTER_DEFAULT_MODEL" ]
    (OpenRouterConfig.model (config (Agent.client this))).
Proof.
  rewrite requestBody_model, getModelForService_chain.
  cbn [mbind option_bind Agent.getProcessingOptions Options.model].
  by rewrite or_JSOpt_or, !first_set_cons.
Qed.

(** X12: temperature and token budget come from the request options, else
    from the agent's configuration, else from the client's defaults, a
    given zero being kept at either level; JSON mode is asked for by the
    request options' [forceJson] when it is given, by the agent's
    [features.jsonMode] otherwise, so a request that says [false] switches
    off what the configuration switched on. *)
Theorem agent_overrides :
  let forceJson :=
    JSOpt.nullish (requestOptions ≫= AgentRequestOptions.forceJson)
                  (AgentConfig.features (Agent.config this)
                     ≫= AgentFeatures.jsonMode) in
  APIRequest.temperature agent_body =
    JS.nullish (requestOptions ≫= AgentRequestOptions.temperature)
      (JS.nullish (AgentConfig.temperature (Agent.config this))
         (getTemperatureForService (Agent.client this))) ∧
  APIRequest.max_tokens agent_body =
    JS.nullish (requestOptions ≫= AgentRequestOptions.maxTokens)
      (JS.nullish (AgentConfig.maxTokens (Agent.config this))
         (getMaxTokensForService (Agent.client this) env)) ∧
  (APIRequest.response_format agent_body
   = Some {| ResponseFormat.type := json_object |}
   ↔ forceJson = Some true ∧
     supportsJsonMode (APIRequest.model agent_body) = true) ∧
  (requestOptions ≫= AgentRequestOptions.forceJson = Some false →
   APIRequest.response_format agent_body = None).
Proof.
  intros forceJson.
  rewrite requestBody_temperature, requestBody_max_tokens,
    requestBody_response_format.
  cbn [mbind option_bind Agent.getProcessingOptions Options.temperature
       Options.maxTokens Options.forceJson].
  fold forceJson.
  split; [|split; [|split]].
  - by destruct (requestOptions ≫= AgentRequestOptions.temperature).
  - by destruct (requestOptions ≫= AgentRequestOptions.maxTokens).
  - destruct forceJson as [[|]|]; destruct (supportsJsonMode _); cbn;
      naive_solver.
  - intros H. subst forceJson. by rewrite H.
Qed.

(** X13: the system message of an agent's request is the system prompt of
    the request options when set and not empty, else what the agent's
    [getSystemPrompt] returns; the client's own prompt for the service
    type is used only when that is empty too.  The user message is the
    prompt. *)
Theorem agent_system_prompt :
  let forceJson :=
    JSOpt.nullish (requestOptions ≫= AgentRequestOptions.forceJson)
                  (AgentConfig.features (Agent.config this)
                     ≫= AgentFeatures.jsonMode) in
  APIRequest.messages agent_body =
    [ {| APIMessage.role := system;
         APIMessage.content :=
           first_set [ requestOptions ≫= AgentRequestOptions.systemPrompt;
                       Some getSystemPrompt ]
                     (getSystemPromptForService (Agent.client this) forceJson) |};
      {| APIMessage.role := user; APIMessage.content := prompt |} ] ∧
  (getSystemPrompt ≠ "" →
   APIRequest.messages agent_body !! 0%nat
   = Some {| APIMessage.role := system;
             APIMessage.content :=
               JS.or (requestOptions ≫= AgentRequestOptions.systemPrompt)
                     getSystemPrompt |}).
Proof.
  intros forceJson. rewrite requestBody_messages.
  cbn [mbind option_bind Agent.getProcessingOptions Options.systemPrompt
       Options.forceJson].
  fold forceJson. rewrite or_Some_or, !first_set_cons, first_set_nil.
  split; [done|].
  intros Hne.
  assert (JS.or (Some getSystemPrompt)
            (getSystemPromptForService (Agent.client this) forceJson)
          = getSystemPrompt) as ->; [|done].
  unfold JS.or, JS.truthy_string.
  by destruct (decide (getSystemPrompt = "")).
Qed.

End Agent_request.

(** ** [Agent.updateConfig] and the client *)

Lemma mapAgentTypeToServiceType_inj (c1 c2 : AgentConfig.t) :
  Agent.mapAgentTypeToServiceType c1 = Agent.mapAgentTypeToServiceType c2 →
  AgentConfig.type c1 = AgentConfig.type c2.
Proof.
  unfold Agent.mapAgentTypeToServiceType.
  by destruct (AgentConfig.type c1), (AgentConfig.type c2).
Qed.

(** X14: [updateConfig] passes a new [openRouter] on to the client and
    nothing else: the client keeps its service type, so after an update
    that changes the agent's type the client of a constructed agent is
    bound to the service of the old type. *)
Theorem updateConfig_keeps_service_type (agentConfig : AgentConfig.t)
    (updates : PartialAgentConfig.t) :
  let this := Agent.constructor agentConfig in
  let this' := Agent.updateConfig this updates in
  serviceType (Agent.client this') = Agent.mapAgentTypeToServiceType agentConfig ∧
  (∀ type, PartialAgentConfig.type updates = Some type →
           AgentConfig.type (Agent.config this') = type ∧
           (type ≠ AgentConfig.type agentConfig →
            serviceType (Agent.client this')
            ≠ Agent.mapAgentTypeToServiceType (Agent.config this'))) ∧
  (∀ openRouter, PartialAgentConfig.openRouter updates = Some openRouter →
                 config (Agent.client this') = openRouter ∧
                 AgentConfig.openRouter (Agent.config this') = openRouter) ∧
  (PartialAgentConfig.openRouter updates = None →
   Agent.client this' = Agent.client this).
Proof.
  intros this this'.
  assert (serviceType (Agent.client this')
          = Agent.mapAgentTypeToServiceType agentConfig) as Hservice.
  { subst this' this. unfold Agent.updateConfig.
    by destruct (PartialAgentConfig.openRouter updates). }
  split; [done|]. split; [|split].
  - intros type Htype.
    assert (AgentConfig.type (Agent.config this') = type) as Hnew.
    { subst this' this. unfold Agent.updateConfig.
      destruct (PartialAgentConfig.openRouter updates); cbn; by rewrite Htype. }
    split; [done|]. intros Hne. rewrite Hservice.
    intros Heq%mapAgentTypeToServiceType_inj. congruence.
  - intros openRouter HopenRouter. subst this' this.
    unfold Agent.updateConfig. rewrite HopenRouter. cbn.
    rewrite HopenRouter. split; [|done]. by destruct openRouter.
  - intros HopenRouter. subst this' this.
    unfold Agent.updateConfig. by rewrite HopenRouter.
Qed.

(** ** [validateJsonSchema] *)


(** * Properties of the [create] command's defaults *)

(** X16: a string is a valid agent type exactly when it is the literal of
    one of the five agent types, and distinct types have distinct
    literals. *)
Theorem isValidAgentType_spec (type : string) :
  (CreateCommand.isValidAgentType type = true ↔
   ∃ t : AgentType.t, AgentType.str t = type) ∧
  (∀ t1 t2, AgentType.str t1 = AgentType.str t2 → t1 = t2).
Proof.
  split.
  - unfold CreateCommand.isValidAgentType. rewrite bool_decide_eq_true.
    rewrite !elem_of_cons, elem_of_nil. split.
    + intros [->|[->|[->|[->|[->|[]]]]]];
        [ by exists AgentType.mock_data
        | by exists AgentType.code_generator
        | by exists AgentType.translator
        | by exists AgentType.documentation
        | by exists AgentType.custom ].
    + intros [[] <-]; cbn; tauto.
  - by intros [] [].
Qed.

(** X17: the temperature the command proposes for an agent type is the
    default temperature of the client that an agent of this type
    builds. *)
Theorem cli_temperature_is_client_default (agentConfig : AgentConfig.t) :
  CreateCommand.getDefaultTemperature (AgentConfig.type agentConfig)
  = getTemperatureForService (Agent.client (Agent.constructor agentConfig)).
Proof.
  unfold getTemperatureForService. cbn.
  unfold Agent.mapAgentTypeToServiceType.
  by destruct (AgentConfig.type agentConfig).
Qed.

(** X18: the token budget the command proposes for an agent type is the
    client's budget for a model of no known family, and half the client's
    budget for the model the command proposes for the type. *)
Theorem cli_max_tokens_and_client_budget (agentConfig : AgentConfig.t)
    (env : Env) :
  let type := AgentConfig.type agentConfig in
  let this := Agent.client (Agent.constructor agentConfig) in
  let model := getModelForService this env in
  (¬ contains "claude-3" model → ¬ contains "gpt-4" model →
   ¬ contains "gpt-3.5" model → ¬ contains "gemini" model →
   getMaxTokensForService this env = CreateCommand.getDefaultMaxTokens type) ∧
  (model = CreateCommand.getDefaultModel type →
   getMaxTokensForService this env
   = (2 * CreateCommand.getDefaultMaxTokens type)%float).
Proof.
  intros type this model. subst type this model. split.
  - unfold getMaxTokensForService, getTokenLimitByService.
    intros ->%includes_false ->%includes_false ->%includes_false
      ->%includes_false.
    cbn. unfold Agent.mapAgentTypeToServiceType.
    by destruct (AgentConfig.type agentConfig).
  - unfold getMaxTokensForService, getTokenLimitByService.
    intros ->. cbn [serviceType Agent.client Agent.constructor
                    newOpenRouterClient JS.nullish].
    unfold Agent.mapAgentTypeToServiceType.
    by destruct (AgentConfig.type agentConfig).
Qed.

(** A translator as the command configures it by default. *)
Lemma cli_max_tokens_and_client_budget_witness :
  let agentConfig :=
    {| AgentConfig.name := "my-translator-agent";
       AgentConfig.type := AgentType.translator;
       AgentConfig.description := None;
       AgentConfig.openRouter :=
         {| OpenRouterConfig.apiKey := "sk-or-test";
            OpenRouterConfig.baseURL := "https://openrouter.ai/api/v1";
            OpenRouterConfig.model :=
              CreateCommand.getDefaultModel AgentType.translator |};
       AgentConfig.model := None;
       AgentConfig.temperature := None;
       AgentConfig.maxTokens := None;
       AgentConfig.systemPrompt := None;
       AgentConfig.features := None |} in
  getMaxTokensForService (Agent.client (Agent.constructor agentConfig)) ∅
  = 3000%float.
Proof.
  intros agentConfig.
  destruct (cli_max_tokens_and_client_budget agentConfig ∅) as [_ H].
  apply H. reflexivity.
Defined.

(** * Properties of the registry *)

Section JSMap_facts.
Context {V : Type}.
Implicit Types (m : list (string * V)) (key : string) (value : V).

Lemma get_set_eq key value m : JSMap.get key (JSMap.set key value m) = Some value.
Proof.
  induction m as [|[k v] rest IH]; cbn.
  - by rewrite decide_True.
  - destruct (decide (k = key)) as [->|Hne]; cbn.
    + by rewrite decide_True.
    + by rewrite decide_False.
Qed.

Lemma get_set_ne key other value m :
  other ≠ key → JSMap.get other (JSMap.set key value m) = JSMap.get other m.
Proof.
  intros Hother. induction m as [|[k v] rest IH]; cbn.
  - by rewrite decide_False.
  - destruct (decide (k = key)) as [->|Hne]; cbn.
    + by rewrite !decide_False.
    + by rewrite IH.
Qed.

Lemma get_delete_eq key m : JSMap.get key (JSMap.delete key m).1 = None.
Proof.
  cbn. induction m as [|[k v] rest IH]; [done|].
  rewrite filter_cons. cbn.
  destruct (decide (k ≠ key)) as [Hne|Heq]; [|done].
  cbn. by rewrite decide_False.
Qed.

Lemma get_delete_ne key other m :
  other ≠ key → JSMap.get other (JSMap.delete key m).1 = JSMap.get other m.
Proof.
  intros Hother. cbn. induction m as [|[k v] rest IH]; [done|].
  rewrite filter_cons. cbn.
  destruct (decide (k ≠ key)) as [Hne|Heq]; cbn.
  - by rewrite IH.
  - apply dec_stable in Heq as ->. by rewrite decide_False.
Qed.

Lemma keys_set key value m :
  (JSMap.set key value m).*1
  = if JSMap.has key m then m.*1 else m.*1 ++ [key].
Proof.
  unfold JSMap.has. induction m as [|[k v] rest IH]; [done|]. cbn.
  destruct (decide (k = key)) as [->|Hne]; [done|]. cbn. rewrite IH.
  by destruct (JSMap.get key rest).
Qed.

Lemma has_elem_of_keys key m : JSMap.has key m = true ↔ key ∈ m.*1.
Proof.
  unfold JSMap.has. induction m as [|[k v] rest IH]; cbn.
  - split; [done|]. by intros ?%elem_of_nil.
  - rewrite elem_of_cons. destruct (decide (k = key)) as [->|Hne].
    + naive_solver.
    + rewrite IH. naive_solver.
Qed.

Lemma keys_delete key m : (JSMap.delete key m).1.*1 = filter (λ k, k ≠ key) m.*1.
Proof.
  cbn. induction m as [|[k v] rest IH]; [done|].
  rewrite fmap_cons, !filter_cons. cbn.
  destruct (decide (k ≠ key)); cbn; by rewrite IH.
Qed.

End JSMap_facts.

Section Registry.
Context {A : Type}.
Implicit Types (this : AgentManager.t A) (name other : string) (agent : A).

Lemma removeAgent_eq this name :
  AgentManager.removeAgent this name
  = ({| AgentManager.agents := (JSMap.delete name (AgentManager.agents this)).1;
        AgentManager.defaultConfig := AgentManager.defaultConfig this |},
     JSMap.has name (AgentManager.agents this)).
Proof. reflexivity. Qed.

(** X19: what is registered under a name is what [getAgent] finds under
    it, other names being unaffected; [removeAgent] tells whether the name
    was there, after it the name is not, and other names are
    unaffected. *)
Theorem registry_round_trip this name other agent :
  AgentManager.getAgent (AgentManager.registerAgent this name agent) name
  = Some agent ∧
  AgentManager.hasAgent (AgentManager.registerAgent this name agent) name
  = true ∧
  (other ≠ name →
   AgentManager.getAgent (AgentManager.registerAgent this name agent) other
   = AgentManager.getAgent this other) ∧
  (AgentManager.removeAgent this name).2 = AgentManager.hasAgent this name ∧
  AgentManager.hasAgent (AgentManager.removeAgent this name).1 name = false ∧
  (other ≠ name →
   AgentManager.getAgent (AgentManager.removeAgent this name).1 other
   = AgentManager.getAgent this other).
Proof.
  rewrite removeAgent_eq.
  unfold AgentManager.getAgent, AgentManager.hasAgent,
    AgentManager.registerAgent.
  cbn [AgentManager.agents fst snd].
  repeat split.
  - apply get_set_eq.
  - unfold JSMap.has. by rewrite get_set_eq.
  - intros. by apply get_set_ne.
  - unfold JSMap.has at 1. by rewrite get_delete_eq.
  - intros. by apply get_delete_ne.
Qed.

(** X20: the names of the registry stay pairwise distinct: registering
    under a name that is there replaces the agent in place, under a new
    name appends it, and removing a name takes out just that name. *)
Theorem registry_names this name agent :
  let names this := (AgentManager.agents this).*1 in
  names (AgentManager.constructor (AgentManager.defaultConfig this)) = [] ∧
  names (AgentManager.registerAgent this name agent)
  = (if AgentManager.hasAgent this name then names this
     else names this ++ [name]) ∧
  names (AgentManager.removeAgent this name).1
  = filter (λ k, k ≠ name) (names this) ∧
  (NoDup (names this) →
   NoDup (names (AgentManager.registerAgent this name agent)) ∧
   NoDup (names (AgentManager.removeAgent this name).1)).
Proof.
  intros names. subst names. cbn beta. rewrite removeAgent_eq.
  unfold AgentManager.registerAgent, AgentManager.hasAgent.
  cbn [AgentManager.agents fst snd AgentManager.constructor].
  split; [done|]. split; [apply keys_set|].
  split; [apply keys_delete|].
  intros Hnodup. split.
  - rewrite keys_set.
    destruct (JSMap.has name (AgentManager.agents this)) eqn:Hhas; [done|].
    apply NoDup_app. split; [done|]. split; [|apply NoDup_singleton].
    intros k Hk ->%list_elem_of_singleton.
    apply has_elem_of_keys in Hk. congruence.
  - rewrite keys_delete. by apply NoDup_filter.
Qed.

End Registry.

Section Registry_stats.
Context {A : Type}.
Variable getType : A → AgentType.t.
Implicit Types (this : AgentManager.t A) (entries : list (string * A)).

Lemma sum_set (key : string) (n : nat) (m : list (string * nat)) :
  (sum_list (JSMap.set key n m).*2 + default 0 (JSMap.get key m)
   = sum_list m.*2 + n)%nat.
Proof.
  induction m as [|[k v] rest IH]; cbn [JSMap.set JSMap.get].
  - cbn. lia.
  - destruct (decide (k = key)) as [->|Hne]; cbn; lia.
Qed.

Lemma sum_tally (byType : list (string * nat)) (type : string) :
  sum_list (AgentManager.tally byType type).*2 = S (sum_list byType.*2).
Proof.
  unfold AgentManager.tally.
  pose proof
    (sum_set type (default 0 (JSMap.get type byType) + 1)%nat byType).
  lia.
Qed.

Lemma count_tally (byType : list (string * nat)) (t u : AgentType.t) :
  count_of (AgentManager.tally byType (AgentType.str t)) u
  = (count_of byType u + if bool_decide (t = u) then 1 else 0)%nat.
Proof.
  unfold count_of, AgentManager.tally.
  destruct (decide (t = u)) as [->|Hne].
  - rewrite get_set_eq, bool_decide_eq_true_2 by done. done.
  - rewrite get_set_ne, bool_decide_eq_false_2 by (try done; by destruct t, u).
    cbn. lia.
Qed.

Lemma stats_fold entries (byType : list (string * nat)) (names : list string) :
  let result := foldl (stats_step getType) (byType, names) entries in
  result.2 = names ++ entries.*1 ∧
  sum_list result.1.*2 = (sum_list byType.*2 + length entries)%nat ∧
  ∀ type,
    count_of result.1 type
    = (count_of byType type
       + length (List.filter (λ agent, bool_decide (getType agent = type))
                             entries.*2))%nat.
Proof.
  revert byType names.
  induction entries as [|[name agent] rest IH]; intros byType names; cbn zeta.
  - cbn. rewrite app_nil_r. repeat split; [lia|].
    intros. unfold count_of. lia.
  - cbn [foldl]. unfold stats_step at 2 4 6. cbn [fst snd].
    destruct (IH (AgentManager.tally byType (AgentType.str (getType agent)))
                 (names ++ [name])) as (Hnames & Hsum & Hcount).
    split; [|split].
    + rewrite Hnames. by rewrite <- app_assoc.
    + rewrite Hsum, sum_tally. cbn. lia.
    + intros type. rewrite Hcount, count_tally. cbn.
      destruct (bool_decide (getType agent = type)); cbn; lia.
Qed.

(** X21: [getAgentStats] lists the registered names in registry order,
    [total] is their number, the tally of each agent type in [byType] is
    the number of agents [getAgentsByType] returns for it, and the tallies
    add up to [total]. *)
Theorem getAgentStats_counts this :
  let stats := AgentManager.getAgentStats getType this in
  AgentManager.names stats = (AgentManager.agents this).*1 ∧
  AgentManager.total stats = length (AgentManager.names stats) ∧
  (∀ type,
     count_of (AgentManager.byType stats) type
     = length (AgentManager.getAgentsByType getType this type)) ∧
  sum_list (AgentManager.byType stats).*2 = AgentManager.total stats.
Proof.
  intros stats.
  destruct (stats_fold (AgentManager.agents this) [] [])
    as (Hnames & Hsum & Hcount).
  assert (stats =
          {| AgentManager.total := length (AgentManager.agents this);
             AgentManager.byType :=
               (foldl (stats_step getType) ([], []) (AgentManager.agents this)).1;
             AgentManager.names :=
               (foldl (stats_step getType) ([], []) (AgentManager.agents this)).2 |})
    as ->.
  { subst stats. unfold AgentManager.getAgentStats.
    change (λ acc entry, _) with (stats_step getType).
    by destruct (foldl (stats_step getType) ([], []) (AgentManager.agents this)). }
  cbn [AgentManager.total AgentManager.byType AgentManager.names].
  cbn [app] in Hnames. cbn in Hsum.
  split; [done|]. split; [by rewrite Hnames, length_fmap|].
  split; [|by rewrite Hsum].
  intros type. rewrite Hcount. unfold AgentManager.getAgentsByType. done.
Qed.

End Registry_stats.

Section Registry_import.
Context {A : Type}.
Implicit Types (this : AgentManager.t A).

Lemma createAgent_throws this (agentConfig : AgentConfig.t) :
  AgentManager.createAgent this agentConfig
  = JS.Throw
      (JS.Error
         ("Agent type " +:+ AgentType.str (AgentConfig.type agentConfig) +:+
          " not implemented yet. Use specific agent classes directly.")).
Proof. reflexivity. Qed.

Lemma importConfig_fold this (entries : list (string * AgentConfig.t))
    (console : list (string * JS.Thrown)) :
  foldl (λ acc entry,
           let '(this, console) := acc in
           match AgentManager.createAgent this entry.2 with
           | JS.Return agent =>
               (AgentManager.registerAgent this entry.1 agent, console)
           | JS.Throw error =>
               (this,
                console ++ [("Failed to import agent " +:+ entry.1 +:+ ":", error)])
           end)
        (this, console) entries
  = (this, console ++ map import_failure entries).
Proof.
  revert console. induction entries as [|entry rest IH]; intros console.
  - by rewrite app_nil_r.
  - cbn [foldl map]. rewrite createAgent_throws, IH.
    by rewrite <- app_assoc.
Qed.

(** X22: [createAgent] always throws, so [importConfig] always leaves the
    registry empty, whatever it held and whatever it is given; each entry
    of the configuration is reported as a failure, in order. *)
Theorem importConfig_registers_nothing this
    (entries : list (string * AgentConfig.t)) (agentConfig : AgentConfig.t) :
  (∃ message,
     AgentManager.createAgent this agentConfig = JS.Throw (JS.Error message) ∧
     contains (AgentType.str (AgentConfig.type agentConfig)) message) ∧
  (AgentManager.importConfig this entries).1
  = AgentManager.constructor (AgentManager.defaultConfig this) ∧
  (AgentManager.importConfig this entries).2
  = map import_failure entries.
Proof.
  split.
  - eexists. split; [apply createAgent_throws | find_occurrence].
  - unfold AgentManager.importConfig. by rewrite importConfig_fold.
Qed.

End Registry_import.

Section Registry_validate.
Context {A : Type}.
Variable getConfig : A → AgentConfig.t.
Implicit Types (this : AgentManager.t A).

(** X23: [validateAgent] finds an agent valid exactly when the name is
    registered and the agent's API key, model and name are all non-empty;
    an unknown name is reported as such; the result is valid exactly when
    it lists no error. *)
Theorem validateAgent_spec this (name : string) :
  let result := AgentManager.validateAgent getConfig this name in
  (AgentManager.isValid result = true ↔
   ∃ agent,
     AgentManager.getAgent this name = Some agent ∧
     OpenRouterConfig.apiKey (AgentConfig.openRouter (getConfig agent)) ≠ "" ∧
     OpenRouterConfig.model (AgentConfig.openRouter (getConfig agent)) ≠ "" ∧
     AgentConfig.name (getConfig agent) ≠ "") ∧
  (AgentManager.getAgent this name = None →
   result = {| AgentManager.isValid := false;
               AgentManager.errors := ["Agent " +:+ name +:+ " not found"] |}) ∧
  (AgentManager.isValid result = true ↔ AgentManager.errors result = []).
Proof.
  intros result. subst result.
  unfold AgentManager.validateAgent, AgentManager.getAgent.
  destruct (JSMap.get name (AgentManager.agents this)) as [agent|].
  - cbn zeta.
    destruct (decide (OpenRouterConfig.apiKey _ = "")) as [Hk|Hk];
      destruct (decide (OpenRouterConfig.model _ = "")) as [Hm|Hm];
      destruct (decide (AgentConfig.name _ = "")) as [Hn|Hn];
      cbn; (split; [|split; [done|done]]);
      (split; [try done; intros _; eauto | intros (? & [= <-] & ? & ? & ?); done]).
  - cbn. split; [|split; [done|done]].
    split; [done | by intros (? & ? & _)].
Qed.

End Registry_validate.

(** * Properties of the model catalogue *)

Lemma keeps_spec (model : OpenRouterModel.t) :
  OpenRouterAPI.keeps model =
  supportsJsonMode (OpenRouterModel.id model)
  || match OpenRouterModel.supported_generation_methods model with
     | Some methods => bool_decide ("json_object" ∈ methods)
     | None => false
     end.
Proof.
  unfold OpenRouterAPI.keeps. f_equal.
  by destruct (OpenRouterModel.supported_generation_methods model).
Qed.

Lemma filter_sublist {X} (f : X → bool) (l : list X) :
  sublist (List.filter f l) l.
Proof.
  induction l as [|x l IH]; cbn; [constructor|].
  destruct (f x); by constructor.
Qed.

Lemma filter_filter {X} (f : X → bool) (l : list X) :
  List.filter f (List.filter f l) = List.filter f l.
Proof.
  induction l as [|x l IH]; cbn; [done|].
  destruct (f x) eqn:E; cbn; [|done]. by rewrite E, IH.
Qed.

(** X24: [filterJsonCapableModels] keeps, in their order, exactly the
    models whose id matches the pattern table or whose generation methods
    list [json_object]; filtering twice changes nothing; and every model
    the client negotiates JSON mode for is kept. *)
Theorem filterJsonCapableModels_spec (models : list OpenRouterModel.t) :
  let kept := OpenRouterAPI.filterJsonCapableModels models in
  (∀ model,
     model ∈ kept ↔
     model ∈ models ∧
     (supportsJsonMode (OpenRouterModel.id model) = true ∨
      ∃ methods,
        OpenRouterModel.supported_generation_methods model = Some methods
        ∧ "json_object" ∈ methods)) ∧
  sublist kept models ∧
  OpenRouterAPI.filterJsonCapableModels kept = kept ∧
  (∀ model,
     model ∈ models → supportsJsonMode (OpenRouterModel.id model) = true →
     model ∈ kept).
Proof.
  intros kept. subst kept. unfold OpenRouterAPI.filterJsonCapableModels.
  assert (∀ model,
            OpenRouterAPI.keeps model = true ↔
            supportsJsonMode (OpenRouterModel.id model) = true ∨
            ∃ methods,
              OpenRouterModel.supported_generation_methods model = Some methods
              ∧ "json_object" ∈ methods) as Hkeeps.
  { intros model. rewrite keeps_spec, orb_true_iff.
    destruct (OpenRouterModel.supported_generation_methods model) as [ms|].
    - rewrite bool_decide_eq_true. naive_solver.
    - naive_solver. }
  split; [|split; [|split]].
  - intros model. rewrite !list_elem_of_In, filter_In, <- list_elem_of_In.
    by rewrite Hkeeps.
  - apply filter_sublist.
  - apply filter_filter.
  - intros model Hin Hjson.
    rewrite list_elem_of_In, filter_In, <- list_elem_of_In.
    split; [done|]. apply Hkeeps. by left.
Qed.

(** X25: a model that is kept only because its generation methods list
    [json_object] is one the client does not negotiate JSON mode for: a
    call naming it with [forceJson] sends no [response_format]. *)
Theorem listed_but_not_negotiated (this : OpenRouterClient) (env : Env)
    (prompt : string) (models : list OpenRouterModel.t)
    (model : OpenRouterModel.t) (methods : list string) :
  model ∈ models →
  OpenRouterModel.supported_generation_methods model = Some methods →
  "json_object" ∈ methods →
  supportsJsonMode (OpenRouterModel.id model) = false →
  OpenRouterModel.id model ≠ "" →
  let body :=
    requestBody this env prompt
      (Some {| Options.systemPrompt := None; Options.temperature := None;
               Options.maxTokens := None; Options.forceJson := Some true;
               Options.model := Some (OpenRouterModel.id model) |}) in
  model ∈ OpenRouterAPI.filterJsonCapableModels models ∧
  APIRequest.model body = OpenRouterModel.id model ∧
  APIRequest.response_format body = None.
Proof.
  intros Hin Hmethods Hjson Hno Hid body.
  assert (APIRequest.model body = OpenRouterModel.id model) as Hmodel.
  { subst body. rewrite requestBody_model. cbn.
    unfold JS.or, JS.truthy_string. by rewrite decide_False. }
  split; [|split; [done|]].
  - unfold OpenRouterAPI.filterJsonCapableModels.
    rewrite list_elem_of_In, filter_In, <- list_elem_of_In.
    split; [done|]. rewrite keeps_spec, Hmethods, Hno.
    by rewrite bool_decide_eq_true_2.
  - subst body. rewrite requestBody_response_format, Hmodel, Hno.
    by rewrite andb_false_r.
Qed.

Lemma listed_but_not_negotiated_witness :
  let model := mistral_large in
  model ∈ OpenRouterAPI.filterJsonCapableModels [model] ∧
  APIRequest.response_format
    (requestBody {| config := sonnet; serviceType := mockGenerator |} ∅
       "three users"
       (Some {| Options.systemPrompt := None; Options.temperature := None;
                Options.maxTokens := None; Options.forceJson := Some true;
                Options.model := Some (OpenRouterModel.id model) |}))
  = None.
Proof.
  intros model.
  destruct
    (listed_but_not_negotiated
       {| config := sonnet; serviceType := mockGenerator |} ∅ "three users"
       [model] model ["json_object"; "text"])
    as (Hkept & _ & Hformat).
  - apply list_elem_of_singleton. reflexivity.
  - reflexivity.
  - apply elem_of_cons. by left.
  - reflexivity.
  - discriminate.
  - exact (conj Hkept Hformat).
Defined.

(** X26: the fallback list asked with [jsonOnly] is the fallback list
    without its one model outside the pattern table; each of its models is
    in the full list and is one the client negotiates JSON mode for. *)
Theorem fallback_json_models (model : OpenRouterModel.t) :
  OpenRouterAPI.getFallbackModels None = OpenRouterAPI.getFallbackModels (Some false) ∧
  OpenRouterModel.id <$> OpenRouterAPI.getFallbackModels None
  = [ "anthropic/claude-3.5-sonnet"; "openai/gpt-4.1-nano";
      "anthropic/claude-3-haiku"; "meta-llama/llama-3.1-8b-instruct:free" ] ∧
  OpenRouterModel.id <$> OpenRouterAPI.getFallbackModels (Some true)
  = [ "anthropic/claude-3.5-sonnet"; "openai/gpt-4.1-nano";
      "anthropic/claude-3-haiku" ] ∧
  (model ∈ OpenRouterAPI.getFallbackModels (Some true) →
   model ∈ OpenRouterAPI.getFallbackModels None ∧
   supportsJsonMode (OpenRouterModel.id model) = true).
Proof.
  split; [done|]. split; [done|]. split; [done|].
  change (OpenRouterAPI.getFallbackModels (Some true))
    with (OpenRouterAPI.filterJsonCapableModels OpenRouterAPI.allFallbacks).
  change (OpenRouterAPI.getFallbackModels None) with OpenRouterAPI.allFallbacks.
  unfold OpenRouterAPI.filterJsonCapableModels.
  rewrite list_elem_of_In, filter_In, <- list_elem_of_In.
  intros [Hin Hkeeps]. split; [done|].
  unfold OpenRouterAPI.allFallbacks in Hin.
  rewrite !elem_of_cons, elem_of_nil in Hin.
  destruct Hin as [->|[->|[->|[->|[]]]]]; try reflexivity.
  discriminate Hkeeps.
Qed.

(** * The [create] command's features and the agent's request *)

(** X27: with the features the command gives an agent type, and no request
    options, an agent asks for JSON mode exactly when it is a mock-data
    agent; the model the command proposes for any type is in the pattern
    table, so on a model of the table the request carries
    [response_format] for the mock-data agent and for no other. *)
Theorem cli_default_json_mode (agentConfig : AgentConfig.t) (env : Env)
    (prompt getSystemPrompt : string) :
  AgentConfig.features agentConfig
  = Some (CreateCommand.getDefaultFeatures (AgentConfig.type agentConfig)) →
  let this := Agent.constructor agentConfig in
  let options := Agent.getProcessingOptions this getSystemPrompt None in
  let body := requestBody (Agent.client this) env prompt (Some options) in
  (Options.forceJson options = Some true
   ↔ AgentConfig.type agentConfig = AgentType.mock_data) ∧
  supportsJsonMode
    (CreateCommand.getDefaultModel (AgentConfig.type agentConfig)) = true ∧
  (supportsJsonMode (APIRequest.model body) = true →
   (APIRequest.response_format body
    = Some {| ResponseFormat.type := json_object |}
    ↔ AgentConfig.type agentConfig = AgentType.mock_data)).
Proof.
  intros Hfeatures this options body.
  assert (Options.forceJson options = Some true
          ↔ AgentConfig.type agentConfig = AgentType.mock_data) as Hforce.
  { subst options this. cbn. rewrite Hfeatures. cbn.
    destruct (AgentConfig.type agentConfig); cbn; naive_solver. }
  split; [done|]. split; [by destruct (AgentConfig.type agentConfig)|].
  intros Hmodel. rewrite <- Hforce. subst body.
  rewrite requestBody_response_format, Hmodel, andb_true_r.
  cbn [mbind option_bind].
  destruct (Options.forceJson options) as [[|]|]; cbn; naive_solver.
Qed.

Lemma cli_default_json_mode_witness :
  let agentConfig :=
    {| AgentConfig.name := "my-mock-data-agent";
       AgentConfig.type := AgentType.mock_data;
       AgentConfig.description := None;
       AgentConfig.openRouter := sonnet;
       AgentConfig.model := None;
       AgentConfig.temperature := None;
       AgentConfig.maxTokens := None;
       AgentConfig.systemPrompt := None;
       AgentConfig.features :=
         Some (CreateCommand.getDefaultFeatures AgentType.mock_data) |} in
  let this := Agent.constructor agentConfig in
  APIRequest.response_format
    (requestBody (Agent.client this) ∅ "three users"
       (Some (Agent.getProcessingOptions this "You generate data." None)))
  = Some {| ResponseFormat.type := json_object |}.
Proof.
  intros agentConfig this.
  destruct
    (cli_default_json_mode agentConfig ∅ "three users" "You generate data."
       eq_refl)
    as (_ & _ & H).
  apply H; reflexivity.
Defined.
